(** * UNO room coordinator: a shallow embedding of the socket server

    The server keeps two process-wide maps, [rooms] (room code -> room) and
    [players] (socket id -> the player and room that socket occupies), and
    reacts to socket events.  Room objects are mutable and live in [rooms];
    a handler that mutates a room it fetched with [rooms.get] is modelled by
    writing the updated record back under the same key.

    Values that the server draws from its environment are arguments of the
    operations: the room code ([Math.random]), the player id ([uuidv4]), the
    clock ([new Date()]) and, for a kick, whether the target socket is still
    connected ([io.sockets.sockets.get]).  Numbers are integers; this
    matters for [maxPlayers], which the server stores unvalidated.  The
    periodic clean-up of idle rooms and the two REST endpoints are not part
    of the model; the [try]/[catch] around the create and join handlers has
    nothing to catch on well-typed input. *)

From Stdlib Require Import ZArith String List Bool Lia.
From stdpp Require Import gmap strings list fin_maps.
Import ListNotations.

Local Open Scope string_scope.
Local Open Scope Z_scope.

(** ** Data model (types/Room.ts and the object literals of the server) *)

Record RoomPlayer := mkPlayer {
  p_id : string;
  p_name : string;
  p_socketId : string;
  p_isHost : bool;
  p_isReady : bool;
  p_joinedAt : Z
}.

Inductive RoomStatus := waiting | playing | finished.

Record GameState := mkGameState {
  gs_currentPlayerIndex : Z;
  gs_direction : string;
  gs_phase : string
}.

Record Room := mkRoom {
  r_id : string;
  r_name : string;
  r_hostId : string;
  r_hostName : string;
  r_maxPlayers : Z;
  r_currentPlayers : Z;
  r_hasPassword : bool;
  r_password : option string;
  r_players : list RoomPlayer;
  r_status : RoomStatus;
  r_createdAt : Z;
  r_gameInProgress : bool;
  r_gameState : option GameState
}.

(** The value stored in the [players] map. *)
Record PlayerInfo := mkInfo { pi_playerId : string; pi_roomId : string }.

(** The two in-memory maps of the server. *)
Record Server := mkServer {
  rooms : gmap string Room;
  players : gmap string PlayerInfo
}.

Definition empty_server : Server := mkServer ∅ ∅.

Record CreateRoomData := mkCreate {
  cd_name : string;
  cd_hostName : string;
  cd_maxPlayers : Z;
  cd_password : option string
}.

Record JoinRoomData := mkJoin {
  jd_roomId : string;
  jd_playerName : string;
  jd_password : option string
}.

(** ** Field updates (assignments to one property of a room or player) *)

Definition set_isHost (b : bool) (p : RoomPlayer) : RoomPlayer :=
  mkPlayer (p_id p) (p_name p) (p_socketId p) b (p_isReady p) (p_joinedAt p).

Definition set_isReady (b : bool) (p : RoomPlayer) : RoomPlayer :=
  mkPlayer (p_id p) (p_name p) (p_socketId p) (p_isHost p) b (p_joinedAt p).

Definition set_players (ps : list RoomPlayer) (r : Room) : Room :=
  mkRoom (r_id r) (r_name r) (r_hostId r) (r_hostName r) (r_maxPlayers r)
    (r_currentPlayers r) (r_hasPassword r) (r_password r) ps (r_status r)
    (r_createdAt r) (r_gameInProgress r) (r_gameState r).

Definition set_currentPlayers (n : Z) (r : Room) : Room :=
  mkRoom (r_id r) (r_name r) (r_hostId r) (r_hostName r) (r_maxPlayers r)
    n (r_hasPassword r) (r_password r) (r_players r) (r_status r)
    (r_createdAt r) (r_gameInProgress r) (r_gameState r).

Definition set_host (hid hname : string) (r : Room) : Room :=
  mkRoom (r_id r) (r_name r) hid hname (r_maxPlayers r)
    (r_currentPlayers r) (r_hasPassword r) (r_password r) (r_players r)
    (r_status r) (r_createdAt r) (r_gameInProgress r) (r_gameState r).

Definition set_started (g : GameState) (r : Room) : Room :=
  mkRoom (r_id r) (r_name r) (r_hostId r) (r_hostName r) (r_maxPlayers r)
    (r_currentPlayers r) (r_hasPassword r) (r_password r) (r_players r)
    playing (r_createdAt r) true (Some g).

(** ** JavaScript helpers *)

(** [!!data.password]: undefined and the empty string are falsy. *)
Definition truthy (o : option string) : bool :=
  match o with
  | Some s => negb (String.eqb s "")
  | None => false
  end.

(** [a === b] on values that are a string or undefined. *)
Definition strict_eq (a b : option string) : bool :=
  match a, b with
  | Some x, Some y => String.eqb x y
  | None, None => true
  | _, _ => false
  end.

Definition status_eqb (a b : RoomStatus) : bool :=
  match a, b with
  | waiting, waiting | playing, playing | finished, finished => true
  | _, _ => false
  end.

(** [Array.prototype.find] with the predicate [p => p.id === pid]. *)
Definition find_by_id (pid : string) (ps : list RoomPlayer) : option RoomPlayer :=
  List.find (fun p => String.eqb (p_id p) pid) ps.

(** Assignment to a property of the object returned by [find]: the first
    player whose id matches is updated in place. *)
Fixpoint update_first (pid : string) (f : RoomPlayer -> RoomPlayer)
    (ps : list RoomPlayer) : list RoomPlayer :=
  match ps with
  | [] => []
  | p :: rest =>
      if String.eqb (p_id p) pid then f p :: rest
      else p :: update_first pid f rest
  end.

(** ** Error messages, with the names the specification gives them *)

Definition RoomNotFound : string := "Phòng không tồn tại".
Definition RoomFull : string := "Phòng đã đầy".
Definition WrongPassword : string := "Mật khẩu không đúng".
Definition GameAlreadyInProgress : string := "Game đang diễn ra".
Definition Mismatch : string := "Thông tin người chơi hoặc phòng không khớp".
Definition HostCannotToggle : string := "Chủ phòng không cần sẵn sàng".
Definition NotHostOrNoRoom : string :=
  "Bạn không phải chủ phòng hoặc phòng không tồn tại".
Definition NotEnoughPlayers : string :=
  "Cần ít nhất 2 người chơi để bắt đầu game".
Definition NotAllReady : string := "Chưa tất cả người chơi sẵn sàng".
Definition KickMismatch : string :=
  "Thông tin người chơi hoặc phòng không khớp.".
Definition KickNotHostOrNoRoom : string :=
  "Bạn không phải chủ phòng hoặc phòng không tồn tại.".
Definition KickHostOrMissing : string :=
  "Không thể kick chủ phòng hoặc người chơi không tồn tại.".

(** ** Room management functions *)

(** [createRoom(data)]; [roomId] is the code drawn from [Math.random] and
    [playerId] the value of [uuidv4()]. *)
Definition createRoom (data : CreateRoomData) (socketId roomId playerId : string)
    (now : Z) (st : Server) : Room * Server :=
  let hostPlayer := mkPlayer playerId (cd_hostName data) socketId true true now in
  let room :=
    mkRoom roomId (cd_name data) playerId (cd_hostName data) (cd_maxPlayers data)
      1 (truthy (cd_password data)) (cd_password data) [hostPlayer] waiting now
      false None in
  (room, mkServer (<[roomId := room]> (rooms st))
                  (<[socketId := mkInfo playerId roomId]> (players st))).

Inductive JoinResult :=
  | JoinFail (error : string)
  | JoinOk (room : Room) (playerId : string).

(** [joinRoom(data)]. *)
Definition joinRoom (data : JoinRoomData) (socketId playerId : string)
    (now : Z) (st : Server) : JoinResult * Server :=
  match rooms st !! jd_roomId data with
  | None => (JoinFail RoomNotFound, st)
  | Some room =>
      if r_maxPlayers room <=? r_currentPlayers room then (JoinFail RoomFull, st)
      else if r_hasPassword room
              && negb (strict_eq (r_password room) (jd_password data))
      then (JoinFail WrongPassword, st)
      else if r_gameInProgress room then (JoinFail GameAlreadyInProgress, st)
      else
        let newPlayer :=
          mkPlayer playerId (jd_playerName data) socketId false false now in
        let room' :=
          set_currentPlayers (r_currentPlayers room + 1)
            (set_players (r_players room ++ [newPlayer]) room) in
        (JoinOk room' playerId,
         mkServer (<[jd_roomId data := room']> (rooms st))
                  (<[socketId := mkInfo playerId (jd_roomId data)]> (players st)))
  end.

Inductive LeaveResult :=
  | LeaveFalse
  | RoomDeleted (roomId : string)
  | PlayerLeft (room : Room) (newHostId : option string) (playerId : string).

(** The players that stay when the socket [socketId] leaves:
    [room.players.filter(p => p.socketId !== socketId)]. *)
Definition others (socketId : string) (ps : list RoomPlayer) : list RoomPlayer :=
  List.filter (fun p => negb (String.eqb (p_socketId p) socketId)) ps.

(** [leaveRoom(socketId)]. *)
Definition leaveRoom (socketId : string) (st : Server) : LeaveResult * Server :=
  match players st !! socketId with
  | None => (LeaveFalse, st)
  | Some info =>
      match rooms st !! pi_roomId info with
      | None => (LeaveFalse, st)
      | Some room =>
          let room1 :=
            set_currentPlayers (r_currentPlayers room - 1)
              (set_players (others socketId (r_players room)) room) in
          let players' := delete socketId (players st) in
          match r_players room1 with
          | [] =>
              (RoomDeleted (pi_roomId info),
               mkServer (delete (pi_roomId info) (rooms st)) players')
          | newHost :: rest =>
              if String.eqb (r_hostId room) (pi_playerId info) then
                let room2 :=
                  set_players (set_isHost true newHost :: rest)
                    (set_host (p_id newHost) (p_name newHost) room1) in
                (PlayerLeft room2 (Some (p_id newHost)) (pi_playerId info),
                 mkServer (<[pi_roomId info := room2]> (rooms st)) players')
              else
                (PlayerLeft room1 None (pi_playerId info),
                 mkServer (<[pi_roomId info := room1]> (rooms st)) players')
          end
      end
  end.

(** ** What goes over the wire

    socket.io sends the JSON form of the value handed to [emit] or to the
    acknowledgement callback.  A property whose value is [undefined] is not
    part of that form, so an object is the list of its defined properties in
    the order the object literal lists them.  A [Date] is represented by
    its timestamp. *)

#[local] Set Warnings "-register-all".

Inductive Json :=
  | JNull
  | JBool (b : bool)
  | JNum (n : Z)
  | JStr (s : string)
  | JArr (items : list Json)
  | JObj (fields : list (string * Json)).

(** Property lookup on the fields of an object. *)
Fixpoint obj_get (k : string) (o : list (string * Json)) : option Json :=
  match o with
  | [] => None
  | (k', v) :: rest => if String.eqb k' k then Some v else obj_get k rest
  end.

(** [const { k, ...rest } = o]: the object without property [k]. *)
Definition obj_rest (k : string) (o : list (string * Json)) : list (string * Json) :=
  List.filter (fun kv => negb (String.eqb (fst kv) k)) o.

(** [{ ...o, k: v }]: an existing property keeps its place, a new one is
    appended. *)
Fixpoint obj_set (k : string) (v : Json) (o : list (string * Json))
    : list (string * Json) :=
  match o with
  | [] => [(k, v)]
  | (k', v') :: rest =>
      if String.eqb k' k then (k, v) :: rest else (k', v') :: obj_set k v rest
  end.

(** Does the property name [k] occur anywhere inside the value? *)
Fixpoint mentions (k : string) (j : Json) : bool :=
  match j with
  | JArr items =>
      (fix any (l : list Json) : bool :=
         match l with
         | [] => false
         | x :: l' => mentions k x || any l'
         end) items
  | JObj fields =>
      (fix any (l : list (string * Json)) : bool :=
         match l with
         | [] => false
         | (k', v) :: l' => String.eqb k' k || mentions k v || any l'
         end) fields
  | _ => false
  end.

Definition optional (k : string) (o : option string) : list (string * Json) :=
  match o with
  | Some s => [(k, JStr s)]
  | None => []
  end.

Definition status_json (s : RoomStatus) : Json :=
  match s with
  | waiting => JStr "waiting"
  | playing => JStr "playing"
  | finished => JStr "finished"
  end.

Definition gameState_json (g : option GameState) : Json :=
  match g with
  | None => JNull
  | Some g =>
      JObj [("currentPlayerIndex", JNum (gs_currentPlayerIndex g));
            ("direction", JStr (gs_direction g));
            ("phase", JStr (gs_phase g))]
  end.

(** A player object as the server stores it. *)
Definition player_json (p : RoomPlayer) : Json :=
  JObj [("id", JStr (p_id p)); ("name", JStr (p_name p));
        ("socketId", JStr (p_socketId p)); ("isHost", JBool (p_isHost p));
        ("isReady", JBool (p_isReady p)); ("joinedAt", JNum (p_joinedAt p))].

(** The player object built inside [getActiveRooms]. *)
Definition public_player (p : RoomPlayer) : Json :=
  JObj [("id", JStr (p_id p)); ("name", JStr (p_name p));
        ("isHost", JBool (p_isHost p)); ("isReady", JBool (p_isReady p));
        ("joinedAt", JNum (p_joinedAt p))].

(** The properties of a stored room object. *)
Definition room_fields (r : Room) : list (string * Json) :=
  [("id", JStr (r_id r)); ("name", JStr (r_name r));
   ("hostId", JStr (r_hostId r)); ("hostName", JStr (r_hostName r));
   ("maxPlayers", JNum (r_maxPlayers r));
   ("currentPlayers", JNum (r_currentPlayers r));
   ("hasPassword", JBool (r_hasPassword r))]
  ++ optional "password" (r_password r)
  ++ [("players", JArr (map player_json (r_players r)));
      ("status", status_json (r_status r));
      ("createdAt", JNum (r_createdAt r));
      ("gameInProgress", JBool (r_gameInProgress r));
      ("gameState", gameState_json (r_gameState r))].

Definition room_json (r : Room) : Json := JObj (room_fields r).

(** The body of the [map] callback of [getActiveRooms]. *)
Definition public_room (r : Room) : Json :=
  JObj (obj_set "players" (JArr (map public_player (r_players r)))
          (obj_rest "password" (room_fields r))).

Definition listed (r : Room) : bool :=
  status_eqb (r_status r) waiting && negb (r_gameInProgress r).

(** [getActiveRooms()].  The order of [rooms.values()] is the insertion
    order of the map; here it is the order of [map_to_list]. *)
Definition getActiveRooms (st : Server) : list Json :=
  map public_room (List.filter listed (map snd (map_to_list (rooms st)))).

(** ** Events and replies *)

(** The payloads of the ['current-room'] channel that the server emits. *)
Inductive RoomEvent :=
  | ROOM_UPDATED (room : Room)
  | PLAYER_LEFT (room : Room) (leavingPlayerId : string) (newHostId : option string)
  | PLAYER_KICKED (room : Room) (kickedPlayerId : string)
  | GAME_STARTED (room : Room)
  | KICKED_FROM_ROOM.

(** The values handed to an acknowledgement callback. *)
Inductive Reply :=
  | CreateOk (room : Room) (playerId : string)
  | JoinReply (result : JoinResult)
  | Failure (error : string)
  | ReadyOk (isReady : bool)
  | Ack
  | RoomList (rooms : list Json).

(** What a handler does to the transport, in program order. *)
Inductive Out :=
  | Callback (r : Reply)
  | SocketJoin (socketId roomId : string)
  | SocketLeave (socketId roomId : string)
  | EmitToRoom (roomId : string) (e : RoomEvent)
  | EmitToRoomExceptSender (roomId sender : string) (e : RoomEvent)
  | EmitToSocket (socketId : string) (e : RoomEvent)
  | EmitRoomsUpdated (rooms : list Json).






(** ** Socket handlers

    Each handler maps the state before the event to the state after it and
    the list of transport actions it performed.  [socketId] is [socket.id]
    of the connection the event arrived on. *)

(** [socket.on('create-room', ...)]. *)
Definition on_create_room (socketId : string) (data : CreateRoomData)
    (roomId playerId : string) (now : Z) (st : Server) : Server * list Out :=
  let '(room, st') := createRoom data socketId roomId playerId now st in
  (st', [SocketJoin socketId (r_id room);
         Callback (CreateOk room playerId);
         EmitRoomsUpdated (getActiveRooms st')]).

(** [socket.on('join-room', ...)]. *)
Definition on_join_room (socketId : string) (data : JoinRoomData)
    (playerId : string) (now : Z) (st : Server) : Server * list Out :=
  match joinRoom data socketId playerId now st with
  | (JoinOk room pid, st') =>
      (st', [SocketJoin socketId (jd_roomId data);
             Callback (JoinReply (JoinOk room pid));
             EmitToRoom (r_id room) (ROOM_UPDATED room);
             EmitRoomsUpdated (getActiveRooms st')])
  | (JoinFail e, st') => (st', [Callback (JoinReply (JoinFail e))])
  end.

(** [socket.on('leave-room', ...)]. *)
Definition on_leave_room (socketId : string) (st : Server) : Server * list Out :=
  match players st !! socketId with
  | None => (st, [])
  | Some playerInfo =>
      match rooms st !! pi_roomId playerInfo with
      | None => (mkServer (rooms st) (delete socketId (players st)), [])
      | Some _ =>
          let roomId := pi_roomId playerInfo in
          let '(result, st') := leaveRoom socketId st in
          (st',
           (match result with
            | RoomDeleted _ => [SocketLeave socketId roomId]
            | PlayerLeft room newHostId pid =>
                [EmitToRoom roomId (PLAYER_LEFT room pid newHostId);
                 SocketLeave socketId roomId]
            | LeaveFalse => []
            end ++ [EmitRoomsUpdated (getActiveRooms st')])%list)
      end
  end.

(** [socket.on('disconnect', ...)]. *)
Definition on_disconnect (socketId : string) (st : Server) : Server * list Out :=
  match players st !! socketId with
  | None => (st, [])
  | Some playerInfo =>
      let roomId := pi_roomId playerInfo in
      let '(result, st') := leaveRoom socketId st in
      (st',
       (match result with
        | PlayerLeft room newHostId pid =>
            [EmitToRoom roomId (PLAYER_LEFT room pid newHostId)]
        | RoomDeleted _ | LeaveFalse => []
        end ++ [EmitRoomsUpdated (getActiveRooms st')])%list)
  end.

(** [socket.on('toggle-ready', ...)]. *)
Definition on_toggle_ready (socketId roomId : string) (st : Server)
    : Server * list Out :=
  match players st !! socketId with
  | None => (st, [Callback (Failure Mismatch)])
  | Some playerInfo =>
      if negb (String.eqb (pi_roomId playerInfo) roomId)
      then (st, [Callback (Failure Mismatch)])
      else
        match rooms st !! pi_roomId playerInfo with
        | None => (st, [Callback (Failure RoomNotFound)])
        | Some room =>
            match find_by_id (pi_playerId playerInfo) (r_players room) with
            | None => (st, [Callback (Failure HostCannotToggle)])
            | Some player =>
                if p_isHost player
                then (st, [Callback (Failure HostCannotToggle)])
                else
                  let ready := negb (p_isReady player) in
                  let room' :=
                    set_players
                      (update_first (pi_playerId playerInfo) (set_isReady ready)
                         (r_players room)) room in
                  (mkServer (<[pi_roomId playerInfo := room']> (rooms st))
                            (players st),
                   [EmitToRoom (pi_roomId playerInfo) (ROOM_UPDATED room');
                    Callback (ReadyOk ready)])
            end
        end
  end.

(** The game state installed by the start-game handler. *)
Definition initial_gameState : GameState := mkGameState 0 "clockwise" "playing".

(** [room.players.filter(p => !p.isHost).every(p => p.isReady)]. *)
Definition allReady (ps : list RoomPlayer) : bool :=
  forallb p_isReady (List.filter (fun p => negb (p_isHost p)) ps).

(** [socket.on('start-game', ...)]. *)
Definition on_start_game (socketId roomId : string) (st : Server)
    : Server * list Out :=
  match players st !! socketId with
  | None => (st, [Callback (Failure Mismatch)])
  | Some playerInfo =>
      if negb (String.eqb (pi_roomId playerInfo) roomId)
      then (st, [Callback (Failure Mismatch)])
      else
        match rooms st !! pi_roomId playerInfo with
        | None => (st, [Callback (Failure NotHostOrNoRoom)])
        | Some room =>
            if negb (String.eqb (r_hostId room) (pi_playerId playerInfo))
            then (st, [Callback (Failure NotHostOrNoRoom)])
            else if (length (r_players room) <? 2)%nat
            then (st, [Callback (Failure NotEnoughPlayers)])
            else if negb (allReady (r_players room))
            then (st, [Callback (Failure NotAllReady)])
            else
              let room' := set_started initial_gameState room in
              let st' :=
                mkServer (<[pi_roomId playerInfo := room']> (rooms st))
                         (players st) in
              (st', [EmitToRoom (pi_roomId playerInfo) (GAME_STARTED room');
                     EmitRoomsUpdated (getActiveRooms st');
                     Callback Ack])
        end
  end.

(** [socket.on('get-rooms', ...)]. *)
Definition on_get_rooms (st : Server) : Server * list Out :=
  (st, [Callback (RoomList (getActiveRooms st))]).

(** [room.players.filter(p => p.id !== targetPlayerId)]. *)
Definition without_id (pid : string) (ps : list RoomPlayer) : list RoomPlayer :=
  List.filter (fun p => negb (String.eqb (p_id p) pid)) ps.

(** [socket.on('kick-player', ...)]; [connected s] tells whether
    [io.sockets.sockets.get(s)] finds a socket. *)
Definition on_kick_player (connected : string -> bool)
    (socketId roomId targetPlayerId : string) (st : Server) : Server * list Out :=
  match players st !! socketId with
  | None => (st, [Callback (Failure KickMismatch)])
  | Some playerInfo =>
      if negb (String.eqb (pi_roomId playerInfo) roomId)
      then (st, [Callback (Failure KickMismatch)])
      else
        match rooms st !! pi_roomId playerInfo with
        | None => (st, [Callback (Failure KickNotHostOrNoRoom)])
        | Some room =>
            if negb (String.eqb (r_hostId room) (pi_playerId playerInfo))
            then (st, [Callback (Failure KickNotHostOrNoRoom)])
            else
              match find_by_id targetPlayerId (r_players room) with
              | None => (st, [Callback (Failure KickHostOrMissing)])
              | Some targetPlayer =>
                  if p_isHost targetPlayer
                  then (st, [Callback (Failure KickHostOrMissing)])
                  else
                    let room' :=
                      set_currentPlayers (r_currentPlayers room - 1)
                        (set_players (without_id targetPlayerId (r_players room))
                           room) in
                    let targetSocketId := p_socketId targetPlayer in
                    let st' :=
                      mkServer (<[pi_roomId playerInfo := room']> (rooms st))
                               (delete targetSocketId (players st)) in
                    (st',
                     ((if connected targetSocketId
                       then [EmitToSocket targetSocketId KICKED_FROM_ROOM;
                             SocketLeave targetSocketId (pi_roomId playerInfo)]
                       else [])
                      ++ [EmitToRoomExceptSender (pi_roomId playerInfo) socketId
                            (PLAYER_KICKED room' targetPlayerId);
                          EmitRoomsUpdated (getActiveRooms st');
                          Callback Ack])%list)
              end
        end
  end.

(** ** The server as a transition system *)

Inductive Request :=
  | CreateRoom (socketId : string) (data : CreateRoomData)
      (roomId playerId : string) (now : Z)
  | JoinRoom (socketId : string) (data : JoinRoomData) (playerId : string) (now : Z)
  | LeaveRoom (socketId : string)
  | ToggleReady (socketId roomId : string)
  | StartGame (socketId roomId : string)
  | GetRooms (socketId : string)
  | KickPlayer (connected : string -> bool) (socketId roomId targetPlayerId : string)
  | Disconnect (socketId : string).

Definition handle (rq : Request) (st : Server) : Server * list Out :=
  match rq with
  | CreateRoom s d rid pid now => on_create_room s d rid pid now st
  | JoinRoom s d pid now => on_join_room s d pid now st
  | LeaveRoom s => on_leave_room s st
  | ToggleReady s rid => on_toggle_ready s rid st
  | StartGame s rid => on_start_game s rid st
  | GetRooms _ => on_get_rooms st
  | KickPlayer c s rid t => on_kick_player c s rid t st
  | Disconnect s => on_disconnect s st
  end.

(** The state after a sequence of requests. *)
Definition run (rqs : list Request) (st : Server) : Server :=
  fold_left (fun s rq => fst (handle rq s)) rqs st.

(** Does the reply of a handler report a failure? *)
Definition failed (outs : list Out) : bool :=
  existsb (fun o =>
    match o with
    | Callback (Failure _) | Callback (JoinReply (JoinFail _)) => true
    | _ => false
    end) outs.

(** * Vocabulary of the properties and example states *)

(** A concrete lobby used by the examples: socket A creates the room ABC123
    with password "pw", socket B joins it. *)
Definition demo_create : Request :=
  CreateRoom "A" (mkCreate "R1" "alice" 4 (Some "pw")) "ABC123" "a" 0.

Definition demo_join : Request :=
  JoinRoom "B" (mkJoin "ABC123" "bob" (Some "pw")) "b" 1.

Definition lobby1 : Server := run [demo_create] empty_server.
Definition lobby2 : Server := run [demo_create; demo_join] empty_server.

(** The requests whose handlers validate before they mutate. *)
Definition validated (rq : Request) : bool :=
  match rq with
  | JoinRoom _ _ _ _ | ToggleReady _ _ | StartGame _ _ | KickPlayer _ _ _ _ => true
  | _ => false
  end.

(** The socket is bound to the named room and its player is that room's
    host: the two guards that open the start-game and kick-player handlers. *)
Definition host_of (st : Server) (socketId roomId : string) (room : Room) : Prop :=
  exists info,
    players st !! socketId = Some info
    /\ pi_roomId info = roomId
    /\ rooms st !! roomId = Some room
    /\ r_hostId room = pi_playerId info.

(** A lobby of three: A created the room, then B and C joined. *)
Definition lobby3 : Server :=
  run [demo_create; demo_join;
       JoinRoom "C" (mkJoin "ABC123" "carol" (Some "pw")) "c" 2] empty_server.

(** The demo lobby after B got ready and the host A started the game. *)
Definition playing2 : Server :=
  run [demo_create; demo_join; ToggleReady "B" "ABC123"; StartGame "A" "ABC123"]
    empty_server.



Definition fields_of (j : Json) : list (string * Json) :=
  match j with
  | JObj fields => fields
  | _ => []
  end.

(** The invariant of the data model: [currentPlayers] is the length of
    [players], and a non-empty room has exactly one player with [isHost],
    whose id is the room's [hostId]. *)
Definition room_invariant (r : Room) : Prop :=
  r_currentPlayers r = Z.of_nat (length (r_players r))
  /\ (r_players r <> [] ->
      exists h, List.filter p_isHost (r_players r) = [h] /\ r_hostId r = p_id h).

(** A sequence of create, join and leave requests on one room: A creates
    ABC123, B joins, A's socket joins the same room a second time, and A
    leaves. *)
Definition second_join_trace : list Request :=
  [demo_create; demo_join;
   JoinRoom "A" (mkJoin "ABC123" "alice" (Some "pw")) "a2" 2;
   LeaveRoom "A"].

(** [ps.filter(p => p.key !== k)], the shape shared by [others] (key
    [socketId]) and [without_id] (key [id]). *)
Definition drop_key (key : RoomPlayer -> string) (k : string)
    (ps : list RoomPlayer) : list RoomPlayer :=
  List.filter (fun p => negb (String.eqb (key p) k)) ps.

(** A stored room is in order: the room invariant holds, the room is not
    empty, its players sit on distinct sockets and have distinct ids, and the
    registry binds the socket of each of its players to that player and this
    room. *)
Definition room_ok (reg : gmap string PlayerInfo) (roomId : string) (r : Room)
    : Prop :=
  room_invariant r
  /\ r_players r <> []
  /\ NoDup (map p_socketId (r_players r))
  /\ NoDup (map p_id (r_players r))
  /\ (forall p, In p (r_players r) ->
        reg !! p_socketId p = Some (mkInfo (p_id p) roomId)).

(** Every stored room is in order and every bound socket has a player in
    some stored room. *)
Definition consistent (st : Server) : Prop :=
  (forall roomId room, rooms st !! roomId = Some room ->
     room_ok (players st) roomId room)
  /\ (forall socketId info, players st !! socketId = Some info ->
        exists roomId room p,
          rooms st !! roomId = Some room
          /\ In p (r_players room) /\ p_socketId p = socketId).

(** Requests of a client that creates or joins only while its socket is
    unbound; the drawn room code and player id are fresh. *)
Definition admissible (rq : Request) (st : Server) : Prop :=
  match rq with
  | CreateRoom socketId _ roomId _ _ =>
      players st !! socketId = None /\ rooms st !! roomId = None
  | JoinRoom socketId data playerId _ =>
      players st !! socketId = None
      /\ (forall room p, rooms st !! jd_roomId data = Some room ->
            In p (r_players room) -> p_id p <> playerId)
  | _ => True
  end.

Fixpoint admissible_trace (rqs : list Request) (st : Server) : Prop :=
  match rqs with
  | [] => True
  | rq :: rest => admissible rq st /\ admissible_trace rest (fst (handle rq st))
  end.

(** A disciplined trace: A creates ABC123, B and C join, the host A leaves
    and the new host B kicks C. *)
Definition disciplined_trace : list Request :=
  [demo_create; demo_join;
   JoinRoom "C" (mkJoin "ABC123" "carol" (Some "pw")) "c" 2;
   LeaveRoom "A";
   KickPlayer (fun _ => true) "B" "ABC123" "c"].

(** * Further vocabulary: capacity, locality, the clean-up *)

(** The count of a room is within its capacity; a room created with a
    capacity below one still holds its creator. *)
Definition capped (r : Room) : Prop :=
  r_currentPlayers r <= Z.max 1 (r_maxPlayers r).

Definition all_rooms (P : Room -> Prop) (st : Server) : Prop :=
  forall k r, rooms st !! k = Some r -> P r.

(** The room a request is about: the one it names or, for a leave or a
    disconnect, the one the registry holds for the socket. *)
Definition room_of (rq : Request) (st : Server) : string :=
  match rq with
  | CreateRoom _ _ roomId _ _ => roomId
  | JoinRoom _ data _ _ => jd_roomId data
  | LeaveRoom s | Disconnect s =>
      match players st !! s with
      | Some info => pi_roomId info
      | None => ""
      end
  | ToggleReady _ roomId | StartGame _ roomId | KickPlayer _ _ roomId _ => roomId
  | GetRooms _ => ""
  end.

(** The socket whose registry entry a request may write: the requester's
    or, for a kick, the socket of the player the target id finds. *)
Definition socket_of (rq : Request) (st : Server) : string :=
  match rq with
  | CreateRoom s _ _ _ _ | JoinRoom s _ _ _ | LeaveRoom s | Disconnect s
  | ToggleReady s _ | StartGame s _ | GetRooms s => s
  | KickPlayer _ _ roomId targetPlayerId =>
      match rooms st !! roomId with
      | Some room =>
          match find_by_id targetPlayerId (r_players room) with
          | Some target => p_socketId target
          | None => ""
          end
      | None => ""
      end
  end.

(** [socket.leave(...)], the one action a disconnect does not perform. *)
Definition is_socket_leave (o : Out) : bool :=
  match o with
  | SocketLeave _ _ => true
  | _ => false
  end.

(** The join came back with [success: true]. *)
Definition joined (r : JoinResult) : bool :=
  match r with
  | JoinOk _ _ => true
  | JoinFail _ => false
  end.

(** ** The periodic clean-up of idle rooms *)

(** [30 * 60 * 1000] milliseconds. *)
Definition maxInactiveTime : Z := 30 * 60 * 1000.

Definition RoomDeletedMessage : string := "Phòng đã bị xóa do không hoạt động.".

(** The test that decides whether the sweep removes a room:
    [inactiveTime > maxInactiveTime && room.status === 'waiting' &&
    !room.gameInProgress], with [inactiveTime = now - createdAt].  A stored
    [createdAt] is always the [Date] set by [createRoom], so the branch that
    skips an invalid date is never taken. *)
Definition expired (now : Z) (room : Room) : bool :=
  (maxInactiveTime <? now - r_createdAt room)
  && status_eqb (r_status room) waiting
  && negb (r_gameInProgress room).

(** What the sweep sends: the ROOM_DELETED event to a room's group and the
    ['rooms-updated'] push. *)
Inductive SweepOut :=
  | EmitRoomDeleted (roomId message : string)
  | SweepRoomsUpdated (rooms : list Json).

(** [room.players.forEach(player => players.delete(player.socketId))]. *)
Definition unbind_all (ps : list RoomPlayer) (reg : gmap string PlayerInfo)
    : gmap string PlayerInfo :=
  fold_left (fun reg p => delete (p_socketId p) reg) ps reg.

(** The body of the loop over [rooms.entries()]. *)
Definition sweep_room (now : Z) (acc : Server * list SweepOut)
    (entry : string * Room) : Server * list SweepOut :=
  let '(st, outs) := acc in
  let '(roomId, room) := entry in
  if expired now room then
    let st' :=
      mkServer (delete roomId (rooms st))
               (unbind_all (r_players room) (players st)) in
    (st',
     (outs
      ++ (if (0 <? length (r_players room))%nat
          then [EmitRoomDeleted roomId RoomDeletedMessage] else [])
      ++ [SweepRoomsUpdated (getActiveRooms st')])%list)
  else (st, outs).

(** One tick of the [setInterval] callback at time [now].  The loop only
    deletes the entry it is visiting, so it visits the entries the map held
    when the tick began. *)
Definition cleanup (now : Z) (st : Server) : Server * list SweepOut :=
  fold_left (sweep_room now) (map_to_list (rooms st)) (st, []).
(** Is [s] the socket of a player of an expired room among the entries? *)
Definition swept_socket (now : Z) (l : list (string * Room)) (s : string) : bool :=
  existsb (fun e => expired now (snd e)
                    && existsb (fun p => String.eqb (p_socketId p) s)
                         (r_players (snd e))) l.

Definition swept_room (now : Z) (l : list (string * Room)) (k : string) : bool :=
  existsb (fun e => String.eqb (fst e) k && expired now (snd e)) l.

(** * The client

    ** The room-system hook (hooks/useRoomSystem.ts) *)

(** [RoomSystemState]. *)
Record RoomSystemState := mkRoomSystem {
  rs_currentRoom : option Room;
  rs_currentPlayerId : option string;
  rs_isHost : bool;
  rs_activeRooms : list Json;
  rs_loading : bool;
  rs_error : option string;
  rs_isConnected : bool
}.

(** The [RoomEvent] union of types/Room.ts, as the client receives it on
    the ['current-room'] channel. *)
Inductive ClientRoomEvent :=
  | CE_ROOM_UPDATED (room : Room)
  | CE_PLAYER_JOINED (player : RoomPlayer) (room : Room)
  | CE_PLAYER_LEFT (leavingPlayerId : string) (newHostId : option string)
      (room : Room)
  | CE_PLAYER_KICKED (kickedPlayerId : string) (room : Room)
  | CE_HOST_CHANGED (newHostId : string) (room : Room)
  | CE_GAME_STARTED (room : Room)
  | CE_KICKED_FROM_ROOM
  | CE_ROOM_DELETED (roomId : string) (message : option string).

(** The [GlobalEvent] union. *)
Inductive GlobalEvent :=
  | ROOMS_UPDATED (rooms : list Json)
  | CONNECTION_STATUS_CHANGED (isConnected : bool)
  | CONNECTION_FAILED.


Definition KickedMessage : string := "Bạn đã bị kick khỏi phòng".
Definition RoomGoneMessage : string := "Phòng bạn đang ở đã bị xóa".
Definition ConnectionLostMessage : string :=
  "Mất kết nối đến server. Vui lòng thử lại.".

(** [{ ...prev, currentRoom: room }]. *)
Definition with_room (room : Room) (prev : RoomSystemState) : RoomSystemState :=
  mkRoomSystem (Some room) (rs_currentPlayerId prev) (rs_isHost prev)
    (rs_activeRooms prev) (rs_loading prev) (rs_error prev)
    (rs_isConnected prev).

(** The state after the client was put out of its room, with the given
    error text. *)
Definition put_out (message : string) (prev : RoomSystemState)
    : RoomSystemState :=
  mkRoomSystem None None false (rs_activeRooms prev) (rs_loading prev)
    (Some message) (rs_isConnected prev).

(** [a || b] on an optional string and a default. *)
Definition or_default (o : option string) (d : string) : string :=
  match o with
  | Some s => if String.eqb s "" then d else s
  | None => d
  end.

(** The state update of the ['current-room'] listener. *)
Definition on_room_event (event : ClientRoomEvent) (prev : RoomSystemState)
    : RoomSystemState :=
  match event with
  | CE_ROOM_UPDATED room | CE_PLAYER_JOINED _ room | CE_PLAYER_LEFT _ _ room
  | CE_PLAYER_KICKED _ room | CE_GAME_STARTED room => with_room room prev
  | CE_HOST_CHANGED newHostId room =>
      mkRoomSystem (Some room) (rs_currentPlayerId prev)
        (strict_eq (rs_currentPlayerId prev) (Some newHostId))
        (rs_activeRooms prev) (rs_loading prev) (rs_error prev)
        (rs_isConnected prev)
  | CE_KICKED_FROM_ROOM => put_out KickedMessage prev
  | CE_ROOM_DELETED roomId message =>
      match rs_currentRoom prev with
      | Some room =>
          if String.eqb (r_id room) roomId
          then put_out (or_default message RoomGoneMessage) prev
          else prev
      | None => prev
      end
  end.

(** The state update of the ['__global__'] listener. *)
Definition on_global_event (event : GlobalEvent) (prev : RoomSystemState)
    : RoomSystemState :=
  match event with
  | ROOMS_UPDATED l =>
      mkRoomSystem (rs_currentRoom prev) (rs_currentPlayerId prev)
        (rs_isHost prev) l (rs_loading prev) (rs_error prev)
        (rs_isConnected prev)
  | CONNECTION_FAILED =>
      mkRoomSystem (rs_currentRoom prev) (rs_currentPlayerId prev)
        (rs_isHost prev) (rs_activeRooms prev) (rs_loading prev)
        (Some ConnectionLostMessage) false
  | CONNECTION_STATUS_CHANGED b =>
      mkRoomSystem (rs_currentRoom prev) (rs_currentPlayerId prev)
        (rs_isHost prev) (rs_activeRooms prev) (rs_loading prev)
        (rs_error prev) b
  end.

(** What the hook's [startGame] sends to the server, if anything:
    [state.isHost && state.currentRoom] guards the call and the socket
    service sends only while connected. *)
Definition hook_startGame (connected : bool) (socketId : string)
    (s : RoomSystemState) : option Request :=
  match rs_currentRoom s with
  | Some room =>
      if rs_isHost s && connected then Some (StartGame socketId (r_id room))
      else None
  | None => None
  end.


(** What the hook's [toggleReady] sends:
    [state.currentRoom && state.currentPlayerId] guards the call. *)
Definition hook_toggleReady (connected : bool) (socketId : string)
    (s : RoomSystemState) : option Request :=
  match rs_currentRoom s with
  | Some room =>
      if truthy (rs_currentPlayerId s) && connected
      then Some (ToggleReady socketId (r_id room))
      else None
  | None => None
  end.

(** ** The screen switch of the App component (App.tsx) *)

Inductive AppState := room_browser | room_lobby | game.

Definition appState_eqb (a b : AppState) : bool :=
  match a, b with
  | room_browser, room_browser | room_lobby, room_lobby | game, game => true
  | _, _ => false
  end.

(** The [setAppState] call of the effect that watches [currentRoom]; the
    state stays as it is when no branch calls it. *)
Definition screen_effect (currentRoom : option Room) (appState : AppState)
    : AppState :=
  match currentRoom with
  | Some room =>
      if r_gameInProgress room && negb (appState_eqb appState game) then game
      else if negb (r_gameInProgress room) && appState_eqb appState game
      then room_lobby
      else if appState_eqb appState room_browser then room_lobby
      else appState
  | None => room_browser
  end.

(** Does that run of the effect call [initializeMultiplayerGame]? *)
Definition initializes_game (currentRoom : option Room) (appState : AppState)
    (currentPlayerId : option string) : bool :=
  match currentRoom with
  | Some room =>
      r_gameInProgress room && negb (appState_eqb appState game)
      && truthy currentPlayerId
  | None => false
  end.

(** ** Reconnection (services/SocketService.ts) *)

Definition maxReconnectAttempts : Z := 5.

Inductive ReconnectAction :=
  | RetryAfter (delay : Z)
  | GiveUp.

(** [handleReconnect()] on the counter [reconnectAttempts]: the new counter
    and either the delay of the scheduled [connect] or the CONNECTION_FAILED
    give-up. *)
Definition handleReconnect (reconnectAttempts : Z) : Z * ReconnectAction :=
  if reconnectAttempts <? maxReconnectAttempts then
    let attempts := reconnectAttempts + 1 in
    (attempts, RetryAfter (Z.min (1000 * 2 ^ attempts) 10000))
  else (reconnectAttempts, GiveUp).

(** ** Replies as the client reads them *)

(** [ServerResponse] of the socket service. *)
Record ServerResponse := mkResponse {
  sr_success : bool;
  sr_error : option string;
  sr_room : option Room;
  sr_playerId : option string
}.

(** The acknowledgement object of a reply, read through that interface. *)
Definition response_of (r : Reply) : ServerResponse :=
  match r with
  | CreateOk room pid | JoinReply (JoinOk room pid) =>
      mkResponse true None (Some room) (Some pid)
  | JoinReply (JoinFail e) | Failure e => mkResponse false (Some e) None None
  | ReadyOk _ | Ack => mkResponse true None None None
  | RoomList _ => mkResponse false None None None
  end.

Definition NoConnectionMessage : string := "Không có kết nối đến server".
Definition CannotCreateMessage : string := "Không thể tạo phòng".
Definition CannotJoinMessage : string := "Không thể tham gia phòng".

(** What the socket service resolves a request with: the server's reply,
    or the failure it makes up itself while it is not connected. *)
Definition service_response (connected : bool) (reply : Reply) : ServerResponse :=
  if connected then response_of reply
  else mkResponse false (Some NoConnectionMessage) None None.

(** The two state updates of the hook's [createRoom] and [joinRoom]: the
    one before the request ([loading: true, error: null]) and the one on its
    result; [asHost] is the [isHost] value the success branch stores
    ([true] in [createRoom], [false] in [joinRoom]) and [fallback] the error
    text of the failure branch. *)
Definition on_result (asHost : bool) (fallback : string)
    (result : ServerResponse) (prev : RoomSystemState) : RoomSystemState :=
  match sr_room result with
  | Some room =>
      if sr_success result && truthy (sr_playerId result) then
        mkRoomSystem (Some room) (sr_playerId result) asHost
          (rs_activeRooms prev) false None (rs_isConnected prev)
      else
        mkRoomSystem (rs_currentRoom prev) (rs_currentPlayerId prev)
          (rs_isHost prev) (rs_activeRooms prev) false
          (Some (or_default (sr_error result) fallback)) (rs_isConnected prev)
  | None =>
      mkRoomSystem (rs_currentRoom prev) (rs_currentPlayerId prev)
        (rs_isHost prev) (rs_activeRooms prev) false
        (Some (or_default (sr_error result) fallback)) (rs_isConnected prev)
  end.

Definition hook_createRoom_result : ServerResponse -> RoomSystemState -> RoomSystemState :=
  on_result true CannotCreateMessage.

Definition hook_joinRoom_result : ServerResponse -> RoomSystemState -> RoomSystemState :=
  on_result false CannotJoinMessage.

(** * Vocabulary of the room events and of host succession *)




(** The demo lobby after A's socket joined its own room a second time:
    the players are a (socket A, host), b (socket B) and a2 (socket A), and
    the registry now holds a2 for socket A. *)
Definition twice_joined_lobby : Server :=
  run [demo_create; demo_join;
       JoinRoom "A" (mkJoin "ABC123" "alice" (Some "pw")) "a2" 2] empty_server.

(** * Properties *)

(** ** Basic facts about the helpers *)

Lemma strict_eq_spec (a b : option string) : strict_eq a b = true <-> a = b.
Proof.
  destruct a as [x|], b as [y|]; simpl; split; intros H;
    try discriminate; try reflexivity.
  - apply String.eqb_eq in H. congruence.
  - apply String.eqb_eq. congruence.
Qed.

Lemma strict_eq_false (a b : option string) : strict_eq a b = false <-> a <> b.
Proof.
  rewrite <- strict_eq_spec. destruct (strict_eq a b); split; congruence.
Qed.

(** ** Joining a room *)

(** C5. A join-room request fails with RoomNotFound when no room has the
    given id; else with RoomFull when [currentPlayers >= maxPlayers]; else
    with WrongPassword when the room has a password and the supplied one
    differs; else with GameAlreadyInProgress when a game is in progress.
    Every failure leaves the state as it was.  Otherwise the request
    succeeds: one new player, neither host nor ready, is appended at the end
    of [players], [currentPlayers] grows by one, the joining socket is bound
    to (playerId, roomId), and the reply carries the updated room. *)
Theorem C5_join_room (socketId : string) (data : JoinRoomData)
    (playerId : string) (now : Z) (st : Server) :
  (rooms st !! jd_roomId data = None ->
   on_join_room socketId data playerId now st
   = (st, [Callback (JoinReply (JoinFail RoomNotFound))]))
  /\
  (forall room, rooms st !! jd_roomId data = Some room ->
     (r_currentPlayers room >= r_maxPlayers room ->
      on_join_room socketId data playerId now st
      = (st, [Callback (JoinReply (JoinFail RoomFull))]))
     /\
     (r_currentPlayers room < r_maxPlayers room ->
      r_hasPassword room = true ->
      r_password room <> jd_password data ->
      on_join_room socketId data playerId now st
      = (st, [Callback (JoinReply (JoinFail WrongPassword))]))
     /\
     (r_currentPlayers room < r_maxPlayers room ->
      r_hasPassword room = false \/ r_password room = jd_password data ->
      r_gameInProgress room = true ->
      on_join_room socketId data playerId now st
      = (st, [Callback (JoinReply (JoinFail GameAlreadyInProgress))]))
     /\
     (r_currentPlayers room < r_maxPlayers room ->
      r_hasPassword room = false \/ r_password room = jd_password data ->
      r_gameInProgress room = false ->
      exists room' st' newPlayer,
        on_join_room socketId data playerId now st
        = (st', [SocketJoin socketId (jd_roomId data);
                 Callback (JoinReply (JoinOk room' playerId));
                 EmitToRoom (r_id room) (ROOM_UPDATED room');
                 EmitRoomsUpdated (getActiveRooms st')])
        /\ r_players room' = (r_players room ++ [newPlayer])%list
        /\ p_id newPlayer = playerId
        /\ p_socketId newPlayer = socketId
        /\ p_isHost newPlayer = false
        /\ p_isReady newPlayer = false
        /\ r_currentPlayers room' = r_currentPlayers room + 1
        /\ rooms st' !! jd_roomId data = Some room'
        /\ players st' !! socketId = Some (mkInfo playerId (jd_roomId data)))).
Proof.
  unfold on_join_room, joinRoom. split.
  - intros ->. reflexivity.
  - intros room ->.
    assert (Hpw : r_hasPassword room = false \/ r_password room = jd_password data ->
                  r_hasPassword room
                  && negb (strict_eq (r_password room) (jd_password data)) = false).
    { intros [-> | Heq]; [reflexivity |].
      apply strict_eq_spec in Heq. rewrite Heq. apply andb_false_r. }
    repeat split.
    + intros Hfull.
      assert ((r_maxPlayers room <=? r_currentPlayers room) = true) as ->
        by (apply Z.leb_le; lia).
      reflexivity.
    + intros Hroom Hhas Hne.
      assert ((r_maxPlayers room <=? r_currentPlayers room) = false) as ->
        by (apply Z.leb_gt; lia).
      apply strict_eq_false in Hne. rewrite Hhas, Hne. reflexivity.
    + intros Hroom Hok Hgame.
      assert ((r_maxPlayers room <=? r_currentPlayers room) = false) as ->
        by (apply Z.leb_gt; lia).
      rewrite (Hpw Hok), Hgame. reflexivity.
    + intros Hroom Hok Hgame.
      assert ((r_maxPlayers room <=? r_currentPlayers room) = false) as ->
        by (apply Z.leb_gt; lia).
      rewrite (Hpw Hok), Hgame.
      eexists _, _, _. split; [reflexivity |].
      simpl. rewrite !lookup_insert_eq. repeat split; reflexivity.
Qed.

(** The successful branch of C5 on the demo lobby: B joins ABC123. *)
Lemma C5_join_room_witness :
  exists room' st' newPlayer,
    on_join_room "B" (mkJoin "ABC123" "bob" (Some "pw")) "b" 1 lobby1
    = (st', [SocketJoin "B" "ABC123";
             Callback (JoinReply (JoinOk room' "b"));
             EmitToRoom "ABC123" (ROOM_UPDATED room');
             EmitRoomsUpdated (getActiveRooms st')])
    /\ length (r_players room') = 2%nat
    /\ p_isHost newPlayer = false
    /\ r_currentPlayers room' = 2
    /\ players st' !! "B" = Some (mkInfo "b" "ABC123").
Proof.
  pose (room :=
    mkRoom "ABC123" "R1" "a" "alice" 4 1 true (Some "pw")
      [mkPlayer "a" "alice" "A" true true 0] waiting 0 false None).
  destruct (C5_join_room "B" (mkJoin "ABC123" "bob" (Some "pw")) "b" 1 lobby1)
    as [_ H].
  destruct (H room) as (_ & _ & _ & Hok); [vm_compute; reflexivity |].
  destruct Hok as (room' & st' & p & Heq & Hps & _ & _ & Hhost & _ & Hcp & _ & Hb);
    [simpl; lia | right; reflexivity | reflexivity |].
  exists room', st', p. repeat split; try assumption.
  rewrite Hps. reflexivity.
Defined.

(** ** Failures are atomic *)

Lemma failed_app (a b : list Out) : failed (a ++ b) = failed a || failed b.
Proof. unfold failed. apply existsb_app. Qed.

(** C10. When a join-room, toggle-ready, start-game or kick-player request
    is answered with a failure, the room store and the socket registry are
    exactly what they were before the request. *)
Theorem C10_failure_is_atomic (rq : Request) (st : Server) :
  validated rq = true ->
  failed (snd (handle rq st)) = true ->
  fst (handle rq st) = st.
Proof.
  destruct rq; simpl; try discriminate; intros _.
  - unfold on_join_room, joinRoom.
    repeat case_match; simplify_eq; simpl; try reflexivity; discriminate.
  - unfold on_toggle_ready.
    repeat case_match; simpl; try reflexivity; discriminate.
  - unfold on_start_game.
    repeat case_match; simpl; try reflexivity; discriminate.
  - unfold on_kick_player.
    repeat case_match; simpl; try reflexivity; discriminate.
Qed.

(** C10 on the demo lobby: a join with the wrong password changes nothing. *)
Lemma C10_failure_is_atomic_witness :
  fst (handle (JoinRoom "B" (mkJoin "ABC123" "bob" (Some "no")) "b" 1) lobby1)
  = lobby1.
Proof.
  apply (C10_failure_is_atomic
           (JoinRoom "B" (mkJoin "ABC123" "bob" (Some "no")) "b" 1) lobby1).
  - reflexivity.
  - vm_compute. reflexivity.
Defined.

(** ** Starting the game *)

Lemma allReady_spec (ps : list RoomPlayer) :
  allReady ps = true <->
  (forall p, In p ps -> p_isHost p = false -> p_isReady p = true).
Proof.
  unfold allReady. rewrite forallb_forall. split.
  - intros H p Hin Hhost. apply H. apply filter_In. rewrite Hhost. auto.
  - intros H p Hin. apply filter_In in Hin as [Hin Hhost].
    apply H; [assumption |]. destruct (p_isHost p); [discriminate | reflexivity].
Qed.

Lemma allReady_false (ps : list RoomPlayer) (p : RoomPlayer) :
  In p ps -> p_isHost p = false -> p_isReady p = false -> allReady ps = false.
Proof.
  intros Hin Hhost Hready. destruct (allReady ps) eqn:E; [| reflexivity].
  rewrite (proj1 (allReady_spec ps) E p Hin Hhost) in Hready. discriminate.
Qed.

(** The guards shared by start-game and kick-player, as one case split. *)
Lemma host_of_dec (st : Server) (socketId roomId : string) :
  (exists room, host_of st socketId roomId room)
  \/ (forall room, ~ host_of st socketId roomId room).
Proof.
  destruct (players st !! socketId) as [info|] eqn:Hinfo.
  2: { right. intros room (i & Hi & _). congruence. }
  destruct (String.eqb_spec (pi_roomId info) roomId) as [<- | Hne].
  2: { right. intros room (i & Hi & Hr & _). congruence. }
  destruct (rooms st !! pi_roomId info) as [room|] eqn:Hroom.
  2: { right. intros room (i & Hi & Hr & Hl & _). congruence. }
  destruct (String.eqb_spec (r_hostId room) (pi_playerId info)) as [Hh | Hne].
  - left. exists room, info. auto.
  - right. intros room' (i & Hi & Hr & Hl & Hh). congruence.
Qed.

(** C6. A start-game request fails unless the caller is the host of the
    named room; it fails with NotEnoughPlayers when the room has fewer than
    two players, and with NotAllReady when some non-host player is not
    ready.  Otherwise it succeeds: the room gets status "playing",
    [gameInProgress] true and a non-null game state, and the GAME_STARTED
    event sent to the members already carries that room. *)
Theorem C6_start_game (socketId roomId : string) (st : Server) :
  ((forall room, ~ host_of st socketId roomId room) ->
   exists e, on_start_game socketId roomId st = (st, [Callback (Failure e)])
             /\ (e = Mismatch \/ e = NotHostOrNoRoom))
  /\
  (forall room, host_of st socketId roomId room ->
     ((length (r_players room) < 2)%nat ->
      on_start_game socketId roomId st
      = (st, [Callback (Failure NotEnoughPlayers)]))
     /\
     ((2 <= length (r_players room))%nat ->
      (exists p, In p (r_players room)
                 /\ p_isHost p = false /\ p_isReady p = false) ->
      on_start_game socketId roomId st = (st, [Callback (Failure NotAllReady)]))
     /\
     ((2 <= length (r_players room))%nat ->
      (forall p, In p (r_players room) -> p_isHost p = false ->
                 p_isReady p = true) ->
      exists room' st',
        on_start_game socketId roomId st
        = (st', [EmitToRoom roomId (GAME_STARTED room');
                 EmitRoomsUpdated (getActiveRooms st');
                 Callback Ack])
        /\ r_status room' = playing
        /\ r_gameInProgress room' = true
        /\ r_gameState room' <> None
        /\ r_players room' = r_players room
        /\ rooms st' !! roomId = Some room'
        /\ players st' = players st)).
Proof.
  split.
  - intros Hnot. unfold on_start_game.
    destruct (players st !! socketId) as [info|] eqn:Hinfo; [| eauto].
    destruct (String.eqb_spec (pi_roomId info) roomId) as [<- | Hne];
      simpl; [| eauto].
    destruct (rooms st !! pi_roomId info) as [room|] eqn:Hroom; [| eauto].
    destruct (String.eqb_spec (r_hostId room) (pi_playerId info)) as [Hh | Hne];
      simpl; [| eauto].
    exfalso. apply (Hnot room). exists info. auto.
  - intros room (info & Hinfo & <- & Hroom & Hhost).
    unfold on_start_game. rewrite Hinfo, String.eqb_refl, Hroom, Hhost.
    rewrite String.eqb_refl. simpl. repeat split.
    + intros Hlen. apply Nat.ltb_lt in Hlen. rewrite Hlen. reflexivity.
    + intros Hlen (p & Hin & Hh & Hr).
      assert ((length (r_players room) <? 2)%nat = false) as ->
        by (apply Nat.ltb_ge; lia).
      rewrite (allReady_false _ p Hin Hh Hr). reflexivity.
    + intros Hlen Hall.
      assert ((length (r_players room) <? 2)%nat = false) as ->
        by (apply Nat.ltb_ge; lia).
      apply allReady_spec in Hall. rewrite Hall. simpl.
      eexists _, _. split; [reflexivity |].
      simpl. rewrite lookup_insert_eq. repeat split; auto; discriminate.
Qed.

(** C6 on the demo lobby once B is ready: the host A starts the game. *)
Lemma C6_start_game_witness :
  exists room' st',
    on_start_game "A" "ABC123"
      (run [demo_create; demo_join; ToggleReady "B" "ABC123"] empty_server)
    = (st', [EmitToRoom "ABC123" (GAME_STARTED room');
             EmitRoomsUpdated (getActiveRooms st');
             Callback Ack])
    /\ r_status room' = playing
    /\ r_gameInProgress room' = true
    /\ r_gameState room' <> None.
Proof.
  pose (room :=
    mkRoom "ABC123" "R1" "a" "alice" 4 2 true (Some "pw")
      [mkPlayer "a" "alice" "A" true true 0;
       mkPlayer "b" "bob" "B" false true 1] waiting 0 false None).
  destruct (C6_start_game "A" "ABC123"
              (run [demo_create; demo_join; ToggleReady "B" "ABC123"] empty_server))
    as [_ H].
  destruct (H room) as (_ & _ & Hok).
  { exists (mkInfo "a" "ABC123"). vm_compute. auto. }
  destruct Hok as (room' & st' & Heq & Hs & Hg & Hgs & _); [simpl; lia | |].
  { intros p [<- | [<- | []]]; simpl; intros; congruence. }
  exists room', st'. auto.
Defined.

(** ** Leaving a room *)


(** Every entry of the listing is the public view of a stored, listed room. *)
Lemma getActiveRooms_In (st : Server) (j : Json) :
  In j (getActiveRooms st) ->
  exists k room,
    rooms st !! k = Some room /\ listed room = true /\ j = public_room room.
Proof.
  unfold getActiveRooms. intros H.
  apply in_map_iff in H as (room & <- & H).
  apply filter_In in H as [H Hl].
  apply in_map_iff in H as ([k r] & Hr & H). simpl in Hr. subst r.
  apply list_elem_of_In, elem_of_map_to_list in H.
  exists k, room. auto.
Qed.

(** The first player that stays is the first player on another socket. *)
Lemma others_head (socketId : string) (ps : list RoomPlayer) :
  head (others socketId ps)
  = List.find (fun p => negb (String.eqb (p_socketId p) socketId)) ps.
Proof.
  induction ps as [| p ps IH]; simpl; [reflexivity |].
  destruct (negb (String.eqb (p_socketId p) socketId)); simpl; auto.
Qed.

(** With one socket per player, a room of two or more keeps someone when
    one socket leaves. *)
Lemma others_nonempty (socketId : string) (ps : list RoomPlayer) :
  (2 <= length ps)%nat -> NoDup (map p_socketId ps) -> others socketId ps <> [].
Proof.
  destruct ps as [| p1 [| p2 ps]]; simpl; try lia. intros _ Hnd Hnil.
  destruct (String.eqb_spec (p_socketId p1) socketId) as [H1 |]; [| discriminate].
  destruct (String.eqb_spec (p_socketId p2) socketId) as [H2 |]; [| discriminate].
  apply NoDup_cons in Hnd as [Hnotin _]. apply Hnotin.
  apply elem_of_cons. left. congruence.
Qed.



(** What [leaveRoom] does when somebody stays: the first player on another
    socket, in join order, heads the remaining list; it is promoted exactly
    when the room's [hostId] is the player id the registry holds for the
    leaving socket. *)
Lemma leaveRoom_succession (socketId : string) (st : Server)
    (info : PlayerInfo) (room : Room) :
  players st !! socketId = Some info ->
  rooms st !! pi_roomId info = Some room ->
  others socketId (r_players room) <> [] ->
  exists newHost rest,
    others socketId (r_players room) = newHost :: rest
    /\ List.find (fun p => negb (String.eqb (p_socketId p) socketId))
         (r_players room) = Some newHost
    /\ (r_hostId room = pi_playerId info ->
        exists room' st',
          leaveRoom socketId st
          = (PlayerLeft room' (Some (p_id newHost)) (pi_playerId info), st')
          /\ rooms st' !! pi_roomId info = Some room'
          /\ r_players room' = set_isHost true newHost :: rest
          /\ p_isHost (set_isHost true newHost) = true
          /\ r_hostId room' = p_id newHost
          /\ r_hostName room' = p_name newHost
          /\ In (EmitToRoom (pi_roomId info)
                   (PLAYER_LEFT room' (pi_playerId info) (Some (p_id newHost))))
                (snd (handle (LeaveRoom socketId) st)))
    /\ (r_hostId room <> pi_playerId info ->
        exists room' st',
          leaveRoom socketId st = (PlayerLeft room' None (pi_playerId info), st')
          /\ rooms st' !! pi_roomId info = Some room'
          /\ r_players room' = newHost :: rest
          /\ r_hostId room' = r_hostId room
          /\ r_hostName room' = r_hostName room
          /\ In (EmitToRoom (pi_roomId info)
                   (PLAYER_LEFT room' (pi_playerId info) None))
                (snd (handle (LeaveRoom socketId) st))).
Proof.
  intros Hinfo Hroom Hne.
  pose proof (others_head socketId (r_players room)) as Hhead.
  destruct (others socketId (r_players room)) as [| newHost rest] eqn:Hoth;
    [congruence |].
  exists newHost, rest. simpl in Hhead.
  split; [reflexivity |]. split; [symmetry; exact Hhead |]. split.
  - intros Hhost. apply String.eqb_eq in Hhost.
    eexists _, _. split.
    { unfold leaveRoom. rewrite Hinfo, Hroom. simpl. rewrite Hoth, Hhost.
      reflexivity. }
    simpl. rewrite lookup_insert_eq. repeat split.
    unfold on_leave_room, leaveRoom. rewrite Hinfo, Hroom. simpl.
    rewrite Hoth, Hhost. simpl. left. reflexivity.
  - intros Hhost. apply String.eqb_neq in Hhost.
    eexists _, _. split.
    { unfold leaveRoom. rewrite Hinfo, Hroom. simpl. rewrite Hoth, Hhost.
      reflexivity. }
    simpl. rewrite lookup_insert_eq. repeat split.
    unfold on_leave_room, leaveRoom. rewrite Hinfo, Hroom. simpl.
    rewrite Hoth, Hhost. simpl. left. reflexivity.
Qed.

(** X22. In a room of at least two players, each on its own socket, when
    the host leaves, the first remaining player in join order is promoted:
    it gets [isHost = true], the room's [hostId] and [hostName] become its id
    and name, and the result (and the PLAYER_LEFT event) carries its id as
    [newHostId].  When another player leaves, nobody is promoted and
    [newHostId] is null. *)
Theorem host_succession_distinct_sockets (socketId : string) (st : Server)
    (info : PlayerInfo) (room : Room) :
  players st !! socketId = Some info ->
  rooms st !! pi_roomId info = Some room ->
  (2 <= length (r_players room))%nat ->
  NoDup (map p_socketId (r_players room)) ->
  exists newHost rest,
    others socketId (r_players room) = newHost :: rest
    /\ List.find (fun p => negb (String.eqb (p_socketId p) socketId))
         (r_players room) = Some newHost
    /\ (r_hostId room = pi_playerId info ->
        exists room' st',
          leaveRoom socketId st
          = (PlayerLeft room' (Some (p_id newHost)) (pi_playerId info), st')
          /\ rooms st' !! pi_roomId info = Some room'
          /\ r_players room' = set_isHost true newHost :: rest
          /\ p_isHost (set_isHost true newHost) = true
          /\ r_hostId room' = p_id newHost
          /\ r_hostName room' = p_name newHost
          /\ In (EmitToRoom (pi_roomId info)
                   (PLAYER_LEFT room' (pi_playerId info) (Some (p_id newHost))))
                (snd (handle (LeaveRoom socketId) st)))
    /\ (r_hostId room <> pi_playerId info ->
        exists room' st',
          leaveRoom socketId st = (PlayerLeft room' None (pi_playerId info), st')
          /\ rooms st' !! pi_roomId info = Some room'
          /\ r_players room' = newHost :: rest
          /\ r_hostId room' = r_hostId room
          /\ r_hostName room' = r_hostName room
          /\ In (EmitToRoom (pi_roomId info)
                   (PLAYER_LEFT room' (pi_playerId info) None))
                (snd (handle (LeaveRoom socketId) st))).
Proof.
  intros Hinfo Hroom Hlen Hnd.
  apply leaveRoom_succession; try assumption.
  apply others_nonempty; assumption.
Qed.

(** X22 on the lobby of three: the host A leaves and B, who joined first,
    becomes host. *)
Lemma host_succession_distinct_sockets_witness :
  exists room' st',
    leaveRoom "A" lobby3 = (PlayerLeft room' (Some "b") "a", st')
    /\ r_hostId room' = "b"
    /\ r_hostName room' = "bob"
    /\ map p_isHost (r_players room') = [true; false].
Proof.
  pose (room :=
    mkRoom "ABC123" "R1" "a" "alice" 4 3 true (Some "pw")
      [mkPlayer "a" "alice" "A" true true 0;
       mkPlayer "b" "bob" "B" false false 1;
       mkPlayer "c" "carol" "C" false false 2] waiting 0 false None).
  destruct (host_succession_distinct_sockets "A" lobby3 (mkInfo "a" "ABC123") room)
    as (newHost & rest & Hoth & _ & Hhost & _);
    [vm_compute; reflexivity | vm_compute; reflexivity | simpl; lia | |].
  { simpl. repeat constructor; rewrite ?elem_of_cons, ?elem_of_nil;
      intros H; repeat destruct H as [H | H]; try discriminate; auto. }
  vm_compute in Hoth. injection Hoth as <- <-.
  destruct Hhost as (room' & st' & Hleave & _ & Hps & _ & Hid & Hname & _);
    [reflexivity |].
  exists room', st'. rewrite Hps. auto.
Defined.

(** C4.  When the host leaves a room of at least two players, the first
    remaining player is to be promoted, with [hostId], [hostName] and
    [newHostId] set to it.  [leaveRoom] decides "the host left" by comparing
    [hostId] with the one player id the registry holds for the socket, while
    it removes every player of that socket.  In the lobby where A's socket
    joined twice the registry holds a2 for socket A: A's leave removes the
    host a together with a2, b stays alone, and nobody is promoted: the
    result carries no new host, b is not marked host, and [hostId] and
    [hostName] still name the player who left. *)
Theorem C4_host_removed_without_promotion :
  (exists room,
     rooms twice_joined_lobby !! "ABC123" = Some room
     /\ map (fun p => (p_id p, p_socketId p, p_isHost p)) (r_players room)
        = [("a", "A", true); ("b", "B", false); ("a2", "A", false)]
     /\ r_hostId room = "a")
  /\ players twice_joined_lobby !! "A" = Some (mkInfo "a2" "ABC123")
  /\ exists room' st',
       leaveRoom "A" twice_joined_lobby = (PlayerLeft room' None "a2", st')
       /\ rooms st' !! "ABC123" = Some room'
       /\ map (fun p => (p_id p, p_socketId p, p_isHost p)) (r_players room')
          = [("b", "B", false)]
       /\ List.filter p_isHost (r_players room') = []
       /\ r_hostId room' = "a"
       /\ r_hostName room' = "alice"
       /\ snd (handle (LeaveRoom "A") twice_joined_lobby)
          = [EmitToRoom "ABC123" (PLAYER_LEFT room' "a2" None);
             SocketLeave "A" "ABC123";
             EmitRoomsUpdated (getActiveRooms st')].
Proof.
  split; [eexists; split; [vm_compute; reflexivity |]; split; reflexivity |].
  split; [vm_compute; reflexivity |].
  eexists _, _. split; [vm_compute; reflexivity |].
  split; [vm_compute; reflexivity |]. repeat split.
Qed.

(** ** Kicking a player *)

Lemma without_id_gone (pid : string) (ps : list RoomPlayer) (p : RoomPlayer) :
  In p (without_id pid ps) -> p_id p <> pid.
Proof.
  unfold without_id. intros H. apply filter_In in H as [_ H].
  apply negb_true_iff, String.eqb_neq in H. exact H.
Qed.

(** C8 as stated does not hold: the host A of the demo lobby gets the very
    same error when the target does not exist and when the target is the
    host, so CannotKickHost is not an error distinct from TargetNotFound. *)
Lemma C8_kick_errors_coincide :
  find_by_id "nobody"
    [mkPlayer "a" "alice" "A" true true 0; mkPlayer "b" "bob" "B" false false 1]
  = None
  /\ snd (handle (KickPlayer (fun _ => true) "A" "ABC123" "nobody") lobby2)
     = [Callback (Failure KickHostOrMissing)]
  /\ snd (handle (KickPlayer (fun _ => true) "A" "ABC123" "a") lobby2)
     = [Callback (Failure KickHostOrMissing)].
Proof. vm_compute. auto. Qed.

(** C8, amended.  A kick-player request fails (NotAuthorized) unless the
    requesting socket is bound to the named room and its player is the
    room's host.  It fails with one and the same error when no player has
    the target id and when the target is the host, so nobody can kick the
    host.  Otherwise the target is removed from [players], [currentPlayers]
    drops by one, the registry entry of the target's socket is deleted, the
    KICKED_FROM_ROOM event goes to the target's socket only (when it is
    still connected) and the PLAYER_KICKED event goes to the room. *)
Theorem C8_kick_player (connected : string -> bool)
    (socketId roomId targetPlayerId : string) (st : Server) :
  ((forall room, ~ host_of st socketId roomId room) ->
   exists e,
     on_kick_player connected socketId roomId targetPlayerId st
     = (st, [Callback (Failure e)])
     /\ (e = KickMismatch \/ e = KickNotHostOrNoRoom))
  /\
  (forall room, host_of st socketId roomId room ->
     (find_by_id targetPlayerId (r_players room) = None ->
      on_kick_player connected socketId roomId targetPlayerId st
      = (st, [Callback (Failure KickHostOrMissing)]))
     /\
     (forall target,
        find_by_id targetPlayerId (r_players room) = Some target ->
        p_isHost target = true ->
        on_kick_player connected socketId roomId targetPlayerId st
        = (st, [Callback (Failure KickHostOrMissing)]))
     /\
     (forall target,
        find_by_id targetPlayerId (r_players room) = Some target ->
        p_isHost target = false ->
        exists room' st',
          on_kick_player connected socketId roomId targetPlayerId st
          = (st',
             ((if connected (p_socketId target)
               then [EmitToSocket (p_socketId target) KICKED_FROM_ROOM;
                     SocketLeave (p_socketId target) roomId]
               else [])
              ++ [EmitToRoomExceptSender roomId socketId
                    (PLAYER_KICKED room' targetPlayerId);
                  EmitRoomsUpdated (getActiveRooms st');
                  Callback Ack])%list)
          /\ r_players room' = without_id targetPlayerId (r_players room)
          /\ (forall p, In p (r_players room') -> p_id p <> targetPlayerId)
          /\ r_currentPlayers room' = r_currentPlayers room - 1
          /\ rooms st' !! roomId = Some room'
          /\ players st' !! p_socketId target = None))
  /\
  (forall room target,
     rooms st !! roomId = Some room ->
     find_by_id targetPlayerId (r_players room) = Some target ->
     p_isHost target = true ->
     failed (snd (on_kick_player connected socketId roomId targetPlayerId st))
     = true
     /\ fst (on_kick_player connected socketId roomId targetPlayerId st) = st).
Proof.
  assert (Hguard : forall room, host_of st socketId roomId room ->
            on_kick_player connected socketId roomId targetPlayerId st
            = match find_by_id targetPlayerId (r_players room) with
              | None => (st, [Callback (Failure KickHostOrMissing)])
              | Some t =>
                  if p_isHost t then (st, [Callback (Failure KickHostOrMissing)])
                  else
                    let room' :=
                      set_currentPlayers (r_currentPlayers room - 1)
                        (set_players (without_id targetPlayerId (r_players room))
                           room) in
                    let st' :=
                      mkServer (<[roomId := room']> (rooms st))
                               (delete (p_socketId t) (players st)) in
                    (st',
                     ((if connected (p_socketId t)
                       then [EmitToSocket (p_socketId t) KICKED_FROM_ROOM;
                             SocketLeave (p_socketId t) roomId]
                       else [])
                      ++ [EmitToRoomExceptSender roomId socketId
                            (PLAYER_KICKED room' targetPlayerId);
                          EmitRoomsUpdated (getActiveRooms st');
                          Callback Ack])%list)
              end).
  { intros room (info & Hinfo & <- & Hroom & Hhost).
    unfold on_kick_player. rewrite Hinfo, String.eqb_refl, Hroom, Hhost.
    rewrite String.eqb_refl. reflexivity. }
  assert (Hdenied : (forall room, ~ host_of st socketId roomId room) ->
            exists e,
              on_kick_player connected socketId roomId targetPlayerId st
              = (st, [Callback (Failure e)])
              /\ (e = KickMismatch \/ e = KickNotHostOrNoRoom)).
  { intros Hnot. unfold on_kick_player.
    destruct (players st !! socketId) as [info|] eqn:Hinfo; [| eauto].
    destruct (String.eqb_spec (pi_roomId info) roomId) as [<- | Hne];
      simpl; [| eauto].
    destruct (rooms st !! pi_roomId info) as [room|] eqn:Hroom; [| eauto].
    destruct (String.eqb_spec (r_hostId room) (pi_playerId info)) as [Hh | Hne];
      simpl; [| eauto].
    exfalso. apply (Hnot room). exists info. auto. }
  split; [exact Hdenied |]. split.
  - intros room Hhost. rewrite (Hguard room Hhost). repeat split.
    + intros ->. reflexivity.
    + intros target -> ->. reflexivity.
    + intros target -> ->. eexists _, _. split; [reflexivity |].
      simpl. rewrite lookup_insert_eq, lookup_delete_eq.
      repeat split; auto. apply without_id_gone.
  - intros room target Hroom Hfind Hishost.
    destruct (host_of_dec st socketId roomId) as [[room' Hhost] | Hnot].
    + assert (room' = room) as ->.
      { destruct Hhost as (_ & _ & _ & Hr & _). congruence. }
      rewrite (Hguard room Hhost), Hfind, Hishost. auto.
    + destruct (Hdenied Hnot) as (e & -> & _). auto.
Qed.

(** C8 on the demo lobby: the host A kicks B, whose socket is connected. *)
Lemma C8_kick_player_witness :
  exists room' st',
    on_kick_player (fun _ => true) "A" "ABC123" "b" lobby2
    = (st', [EmitToSocket "B" KICKED_FROM_ROOM;
             SocketLeave "B" "ABC123";
             EmitToRoomExceptSender "ABC123" "A" (PLAYER_KICKED room' "b");
             EmitRoomsUpdated (getActiveRooms st');
             Callback Ack])
    /\ map p_id (r_players room') = ["a"]
    /\ r_currentPlayers room' = 1
    /\ players st' !! "B" = None.
Proof.
  pose (room :=
    mkRoom "ABC123" "R1" "a" "alice" 4 2 true (Some "pw")
      [mkPlayer "a" "alice" "A" true true 0;
       mkPlayer "b" "bob" "B" false false 1] waiting 0 false None).
  destruct (C8_kick_player (fun _ => true) "A" "ABC123" "b" lobby2)
    as (_ & H & _).
  destruct (H room) as (_ & _ & Hok).
  { exists (mkInfo "a" "ABC123"). vm_compute. auto. }
  destruct (Hok (mkPlayer "b" "bob" "B" false false 1))
    as (room' & st' & Heq & Hps & _ & Hcp & _ & Hb);
    [reflexivity | reflexivity |].
  exists room', st'. rewrite Hps. auto.
Defined.

(** ** Creating a room *)

(** C9 as stated does not hold: [createRoom] stores the room under the code
    it drew without looking the code up first.  When B's create draws the
    code of A's room, A's room is replaced by B's. *)
Lemma C9_create_overwrites_on_collision :
  r_hostId <$> rooms lobby1 !! "ABC123" = Some "a"
  /\ r_hostId <$>
       rooms (fst (handle (CreateRoom "B" (mkCreate "R2" "bob" 2 None)
                             "ABC123" "b" 5) lobby1)) !! "ABC123"
     = Some "b"
  /\ players (fst (handle (CreateRoom "B" (mkCreate "R2" "bob" 2 None)
                             "ABC123" "b" 5) lobby1)) !! "A"
     = Some (mkInfo "a" "ABC123").
Proof. vm_compute. auto. Qed.

(** C9, amended.  A create-room operation stores the new room under the
    code it drew, with no collision check and no retry.  The created room
    contains exactly one player, marked both host and ready, and the
    creating socket is bound to that (playerId, roomId).  When the drawn code
    is not yet a key of the store, every room that was stored stays as it
    was. *)
Theorem C9_create_room (socketId : string) (data : CreateRoomData)
    (roomId playerId : string) (now : Z) (st : Server) :
  exists room st' hostPlayer,
    createRoom data socketId roomId playerId now st = (room, st')
    /\ on_create_room socketId data roomId playerId now st
       = (st', [SocketJoin socketId roomId;
                Callback (CreateOk room playerId);
                EmitRoomsUpdated (getActiveRooms st')])
    /\ rooms st' !! roomId = Some room
    /\ r_id room = roomId
    /\ r_players room = [hostPlayer]
    /\ p_id hostPlayer = playerId
    /\ p_socketId hostPlayer = socketId
    /\ p_isHost hostPlayer = true
    /\ p_isReady hostPlayer = true
    /\ r_hostId room = playerId
    /\ r_currentPlayers room = 1
    /\ players st' !! socketId = Some (mkInfo playerId roomId)
    /\ (rooms st !! roomId = None ->
        forall k r, rooms st !! k = Some r -> rooms st' !! k = Some r).
Proof.
  eexists _, _, _. split; [reflexivity |].
  simpl. rewrite !lookup_insert_eq. repeat split.
  intros Hfresh k r Hk. rewrite lookup_insert_ne; [assumption |].
  intros <-. congruence.
Qed.

(** C9 on the demo lobby: B creates a room under a code that is free, and
    A's room is still there. *)
Lemma C9_create_room_witness :
  r_hostId <$>
    rooms (snd (createRoom (mkCreate "R2" "bob" 2 None) "B" "XYZ789" "b" 5 lobby1))
      !! "ABC123"
  = Some "a".
Proof.
  destruct (C9_create_room "B" (mkCreate "R2" "bob" 2 None) "XYZ789" "b" 5 lobby1)
    as (room & st' & p & Heq & _ & _ & _ & _ & _ & _ & _ & _ & _ & _ & _ & Hkeep).
  rewrite Heq. simpl.
  rewrite (Hkeep eq_refl "ABC123"
             (mkRoom "ABC123" "R1" "a" "alice" 4 1 true (Some "pw")
                [mkPlayer "a" "alice" "A" true true 0] waiting 0 false None));
    [reflexivity | vm_compute; reflexivity].
Defined.

(** ** A room whose game is in progress *)

(** C2 as stated does not hold: while the game of ABC123 is in progress, B's
    toggle-ready succeeds and flips B's flag, and A's kick of B succeeds and
    removes B. *)
Lemma C2_toggle_and_kick_during_game :
  r_gameInProgress <$> rooms playing2 !! "ABC123" = Some true
  /\ snd (handle (ToggleReady "B" "ABC123") playing2)
     = [EmitToRoom "ABC123"
          (ROOM_UPDATED
             (mkRoom "ABC123" "R1" "a" "alice" 4 2 true (Some "pw")
                [mkPlayer "a" "alice" "A" true true 0;
                 mkPlayer "b" "bob" "B" false false 1]
                playing 0 true (Some initial_gameState)));
        Callback (ReadyOk false)]
  /\ rooms (fst (handle (ToggleReady "B" "ABC123") playing2)) !! "ABC123"
     <> rooms playing2 !! "ABC123"
  /\ failed (snd (handle (KickPlayer (fun _ => true) "A" "ABC123" "b") playing2))
     = false
  /\ map p_id <$> (r_players <$>
       rooms (fst (handle (KickPlayer (fun _ => true) "A" "ABC123" "b") playing2))
         !! "ABC123")
     = Some ["a"].
Proof. vm_compute. repeat split; auto. discriminate. Qed.

Lemma leaveRoom_effect (socketId : string) (st : Server)
    (info : PlayerInfo) (room : Room) :
  players st !! socketId = Some info ->
  rooms st !! pi_roomId info = Some room ->
  players (snd (leaveRoom socketId st)) !! socketId = None
  /\ match rooms (snd (leaveRoom socketId st)) !! pi_roomId info with
     | None => others socketId (r_players room) = []
     | Some room' =>
         map p_id (r_players room') = map p_id (others socketId (r_players room))
         /\ r_currentPlayers room' = r_currentPlayers room - 1
         /\ r_gameInProgress room' = r_gameInProgress room
     end.
Proof.
  intros Hinfo Hroom. unfold leaveRoom. rewrite Hinfo, Hroom. simpl.
  destruct (others socketId (r_players room)) as [| newHost rest]; simpl.
  - rewrite !lookup_delete_eq. auto.
  - destruct (String.eqb (r_hostId room) (pi_playerId info)); simpl;
      rewrite lookup_delete_eq, lookup_insert_eq; auto.
Qed.

Lemma leave_handlers_state (socketId : string) (st : Server)
    (info : PlayerInfo) (room : Room) (rq : Request) :
  players st !! socketId = Some info ->
  rooms st !! pi_roomId info = Some room ->
  rq = LeaveRoom socketId \/ rq = Disconnect socketId ->
  fst (handle rq st) = snd (leaveRoom socketId st).
Proof.
  intros Hinfo Hroom [-> | ->]; simpl; unfold on_leave_room, on_disconnect;
    rewrite Hinfo, ?Hroom; destruct (leaveRoom socketId st); reflexivity.
Qed.

(** C2, amended.  For a room whose [gameInProgress] flag is true: every
    join-room request for it fails and leaves the state unchanged; a leave
    (or disconnect) of a member still takes effect: its registry entry and
    its players are removed and the count drops, or the room is deleted when
    nobody is left.  Kick-player and toggle-ready do not look at the flag:
    they succeed whenever their own checks pass. *)
Theorem C2_game_in_progress (st : Server) (roomId : string) (room : Room) :
  rooms st !! roomId = Some room ->
  r_gameInProgress room = true ->
  (forall s data pid now,
     jd_roomId data = roomId ->
     failed (snd (on_join_room s data pid now st)) = true
     /\ fst (on_join_room s data pid now st) = st)
  /\
  (forall s info rq,
     players st !! s = Some info ->
     pi_roomId info = roomId ->
     rq = LeaveRoom s \/ rq = Disconnect s ->
     players (fst (handle rq st)) !! s = None
     /\ match rooms (fst (handle rq st)) !! roomId with
        | None => others s (r_players room) = []
        | Some room' =>
            map p_id (r_players room') = map p_id (others s (r_players room))
            /\ r_currentPlayers room' = r_currentPlayers room - 1
            /\ r_gameInProgress room' = true
        end)
  /\
  (forall connected s targetPlayerId target,
     host_of st s roomId room ->
     find_by_id targetPlayerId (r_players room) = Some target ->
     p_isHost target = false ->
     failed (snd (on_kick_player connected s roomId targetPlayerId st)) = false
     /\ (without_id targetPlayerId <$> (r_players <$> rooms st !! roomId))
        = (r_players <$>
             rooms (fst (on_kick_player connected s roomId targetPlayerId st))
               !! roomId))
  /\
  (forall s info player,
     players st !! s = Some info ->
     pi_roomId info = roomId ->
     find_by_id (pi_playerId info) (r_players room) = Some player ->
     p_isHost player = false ->
     exists room',
       snd (on_toggle_ready s roomId st)
       = [EmitToRoom roomId (ROOM_UPDATED room');
          Callback (ReadyOk (negb (p_isReady player)))]
       /\ rooms (fst (on_toggle_ready s roomId st)) !! roomId = Some room'
       /\ r_players room'
          = update_first (pi_playerId info)
              (set_isReady (negb (p_isReady player))) (r_players room)).
Proof.
  intros Hroom Hgame. repeat split.
  - unfold on_join_room, joinRoom. rewrite H, Hroom, Hgame.
    repeat case_match; simplify_eq; reflexivity.
  - unfold on_join_room, joinRoom. rewrite H, Hroom, Hgame.
    repeat case_match; simplify_eq; reflexivity.
  - subst roomId. rewrite (leave_handlers_state s st info room rq); auto.
    apply (leaveRoom_effect s st info room); auto.
  - subst roomId. rewrite (leave_handlers_state s st info room rq); auto.
    pose proof (leaveRoom_effect s st info room H Hroom) as [_ Heff].
    destruct (rooms (snd (leaveRoom s st)) !! pi_roomId info); [| assumption].
    destruct Heff as (? & ? & ?). repeat split; congruence.
  - destruct H as (info & Hinfo & <- & _ & Hhost).
    unfold on_kick_player.
    rewrite Hinfo, String.eqb_refl, Hroom, Hhost, String.eqb_refl. simpl.
    rewrite H0, H1. simpl. rewrite failed_app.
    destruct (connected (p_socketId target)); reflexivity.
  - destruct H as (info & Hinfo & <- & _ & Hhost).
    unfold on_kick_player.
    rewrite Hinfo, String.eqb_refl, Hroom, Hhost, String.eqb_refl. simpl.
    rewrite H0, H1. simpl. rewrite lookup_insert_eq. reflexivity.
  - intros s info player Hinfo <- Hfind Hhost.
    unfold on_toggle_ready.
    rewrite Hinfo, String.eqb_refl, Hroom, Hfind, Hhost. simpl.
    eexists. split; [reflexivity |]. rewrite lookup_insert_eq. auto.
Qed.

(** C2 on the started game: C's join is refused and changes nothing. *)
Lemma C2_game_in_progress_witness :
  failed (snd (on_join_room "C" (mkJoin "ABC123" "carol" (Some "pw")) "c" 9
                 playing2)) = true
  /\ fst (on_join_room "C" (mkJoin "ABC123" "carol" (Some "pw")) "c" 9 playing2)
     = playing2.
Proof.
  destruct (C2_game_in_progress playing2 "ABC123"
              (mkRoom "ABC123" "R1" "a" "alice" 4 2 true (Some "pw")
                 [mkPlayer "a" "alice" "A" true true 0;
                  mkPlayer "b" "bob" "B" false true 1]
                 playing 0 true (Some initial_gameState)))
    as (Hjoin & _); [vm_compute; reflexivity | reflexivity |].
  apply (Hjoin "C" (mkJoin "ABC123" "carol" (Some "pw")) "c" 9). reflexivity.
Defined.

(** ** Where the password travels *)

Lemma mentions_public_players (k : string) (ps : list RoomPlayer) :
  "id" <> k -> "name" <> k -> "isHost" <> k -> "isReady" <> k ->
  "joinedAt" <> k ->
  mentions k (JArr (map public_player ps)) = false.
Proof.
  intros H1 H2 H3 H4 H5. induction ps as [| p ps IH]; [reflexivity |].
  cbn -[String.eqb] in *. rewrite IH.
  apply String.eqb_neq in H1, H2, H3, H4, H5.
  rewrite H1, H2, H3, H4, H5. reflexivity.
Qed.

Lemma mentions_public_room (r : Room) : mentions "password" (public_room r) = false.
Proof.
  unfold public_room, room_fields.
  pose proof (mentions_public_players "password" (r_players r)) as Hps.
  destruct (r_password r), (r_status r), (r_gameState r); cbn in *;
    rewrite Hps; try reflexivity; discriminate.
Qed.













(** ** The room invariant *)

(** C3.  The invariant is what the code maintains step by step (it counts
    up with every push and down with every removal), but [joinRoom] accepts
    a socket that already has a player in the room, and [leaveRoom] then
    removes every player of that socket while it counts down by one and
    compares [hostId] with the one player id the registry remembers.  After
    the trace above the room holds the single player b, [currentPlayers] is
    2, and no player is host. *)
Theorem C3_second_join_breaks_invariant :
  exists room,
    rooms (run second_join_trace empty_server) !! "ABC123" = Some room
    /\ map p_id (r_players room) = ["b"]
    /\ r_currentPlayers room = 2
    /\ List.filter p_isHost (r_players room) = []
    /\ r_hostId room = "a"
    /\ ~ room_invariant room.
Proof.
  eexists. split; [vm_compute; reflexivity |].
  repeat split; try reflexivity.
  intros [Hcount _]. vm_compute in Hcount. discriminate.
Qed.

(** * The invariant on disciplined traces *)

(** ** Lists of players indexed by a key *)

Section DropKey.
Variable key : RoomPlayer -> string.

Lemma drop_key_In (k : string) (ps : list RoomPlayer) (p : RoomPlayer) :
  In p (drop_key key k ps) <-> In p ps /\ key p <> k.
Proof.
  unfold drop_key. rewrite filter_In, negb_true_iff, String.eqb_neq. tauto.
Qed.

Lemma drop_key_NoDup (g : RoomPlayer -> string) (k : string)
    (ps : list RoomPlayer) :
  NoDup (map g ps) -> NoDup (map g (drop_key key k ps)).
Proof.
  induction ps as [| p ps IH]; simpl; [auto |].
  rewrite NoDup_cons. intros [Hnotin Hnd].
  destruct (negb (String.eqb (key p) k)); simpl; [| auto].
  apply NoDup_cons. split; [| auto].
  intros Hin. apply Hnotin.
  apply list_elem_of_In, in_map_iff in Hin as (q & Hq & Hin).
  apply drop_key_In in Hin as [Hin _].
  apply list_elem_of_In, in_map_iff. eauto.
Qed.

Lemma drop_key_absent (k : string) (ps : list RoomPlayer) :
  (forall p, In p ps -> key p <> k) -> drop_key key k ps = ps.
Proof.
  induction ps as [| p ps IH]; simpl; [reflexivity |]. intros H.
  assert (key p <> k) as Hne by (apply H; auto).
  apply String.eqb_neq in Hne. rewrite Hne. simpl. f_equal. apply IH.
  intros q Hq. apply H. auto.
Qed.

(** With distinct keys, dropping the key of a member removes one player. *)
Lemma drop_key_length (ps : list RoomPlayer) (p : RoomPlayer) :
  NoDup (map key ps) -> In p ps ->
  S (length (drop_key key (key p) ps)) = length ps.
Proof.
  induction ps as [| q ps IH]; simpl; [tauto |].
  rewrite NoDup_cons. intros [Hnotin Hnd] [-> | Hin].
  - rewrite String.eqb_refl. simpl. f_equal.
    fold (drop_key key (key p) ps). rewrite drop_key_absent; [reflexivity |].
    intros r Hr Heq. apply Hnotin. rewrite <- Heq.
    apply list_elem_of_In, in_map_iff. eauto.
  - destruct (String.eqb_spec (key q) (key p)) as [Heq | Hne]; simpl.
    + exfalso. apply Hnotin. rewrite Heq.
      apply list_elem_of_In, in_map_iff. eauto.
    + f_equal. apply IH; assumption.
Qed.

Lemma drop_key_filter (P : RoomPlayer -> bool) (k : string)
    (ps : list RoomPlayer) :
  List.filter P (drop_key key k ps) = drop_key key k (List.filter P ps).
Proof.
  induction ps as [| p ps IH]; simpl; [reflexivity |].
  destruct (negb (String.eqb (key p) k)) eqn:Hk, (P p) eqn:HP; simpl;
    rewrite ?Hk, ?HP, IH; reflexivity.
Qed.
End DropKey.

(** Two members with the same key are the same player. *)
Lemma NoDup_key_inj (key : RoomPlayer -> string) (ps : list RoomPlayer)
    (p q : RoomPlayer) :
  NoDup (map key ps) -> In p ps -> In q ps -> key p = key q -> p = q.
Proof.
  induction ps as [| r ps IH]; simpl; [tauto |].
  rewrite NoDup_cons. intros [Hnotin Hnd] [-> | Hp] [-> | Hq] Heq; auto.
  - exfalso. apply Hnotin. rewrite Heq. apply list_elem_of_In, in_map_iff. eauto.
  - exfalso. apply Hnotin. rewrite <- Heq. apply list_elem_of_In, in_map_iff. eauto.
Qed.

Lemma find_by_id_In (pid : string) (ps : list RoomPlayer) (p : RoomPlayer) :
  find_by_id pid ps = Some p -> In p ps /\ p_id p = pid.
Proof.
  unfold find_by_id. intros H. apply find_some in H as [Hin Heq].
  apply String.eqb_eq in Heq. auto.
Qed.

Lemma filter_isHost_In (ps : list RoomPlayer) (h p : RoomPlayer) :
  List.filter p_isHost ps = [h] -> In p ps -> p_isHost p = true -> p = h.
Proof.
  intros Hf Hin Hhost.
  assert (In p (List.filter p_isHost ps)) as H by (apply filter_In; auto).
  rewrite Hf in H. destruct H as [-> | []]. reflexivity.
Qed.

Lemma filter_isHost_host (ps : list RoomPlayer) (h : RoomPlayer) :
  List.filter p_isHost ps = [h] -> In h ps /\ p_isHost h = true.
Proof.
  intros Hf. apply filter_In. rewrite Hf. left. reflexivity.
Qed.

(** ** Consistent states *)

Lemma consistent_bound (st : Server) (socketId : string) (info : PlayerInfo) :
  consistent st -> players st !! socketId = Some info ->
  exists room p,
    rooms st !! pi_roomId info = Some room
    /\ In p (r_players room)
    /\ p_socketId p = socketId /\ p_id p = pi_playerId info.
Proof.
  intros [Hrooms Hreg] Hinfo.
  destruct (Hreg _ _ Hinfo) as (rid & room & p & Hroom & Hin & Hsock).
  destruct (Hrooms _ _ Hroom) as (_ & _ & _ & _ & Hbind).
  specialize (Hbind p Hin). rewrite Hsock, Hinfo in Hbind.
  injection Hbind as ->. simpl. eauto 6.
Qed.

(** A player of a stored room sits on a bound socket. *)
Lemma consistent_member (st : Server) (roomId : string) (room : Room)
    (p : RoomPlayer) :
  consistent st -> rooms st !! roomId = Some room -> In p (r_players room) ->
  players st !! p_socketId p = Some (mkInfo (p_id p) roomId).
Proof.
  intros [Hrooms _] Hroom Hin.
  destruct (Hrooms _ _ Hroom) as (_ & _ & _ & _ & Hbind). auto.
Qed.

Lemma consistent_empty : consistent empty_server.
Proof.
  split; simpl; intros ? ? H; rewrite lookup_empty in H; discriminate.
Qed.

Lemma consistent_create (data : CreateRoomData)
    (socketId roomId playerId : string) (now : Z) (st : Server) :
  consistent st ->
  players st !! socketId = None -> rooms st !! roomId = None ->
  consistent (snd (createRoom data socketId roomId playerId now st)).
Proof.
  intros Hc Hfree Hfresh. split; simpl.
  - intros k room Hk. destruct (decide (k = roomId)) as [-> | Hne].
    + rewrite lookup_insert_eq in Hk. injection Hk as <-.
      unfold room_ok, room_invariant. simpl. repeat split.
      * intros _. eexists. split; reflexivity.
      * discriminate.
      * apply NoDup_singleton.
      * apply NoDup_singleton.
      * intros p [<- | []]. simpl. apply lookup_insert_eq.
    + rewrite lookup_insert_ne in Hk by congruence.
      destruct (proj1 Hc _ _ Hk) as (Hinv & Hne' & Hs & Hi & Hbind).
      refine (conj Hinv (conj Hne' (conj Hs (conj Hi _)))). intros p Hin.
      rewrite lookup_insert_ne; [auto |].
      intros Heq. rewrite Heq, (Hbind p Hin) in Hfree. discriminate.
  - intros s info Hs. destruct (decide (s = socketId)) as [-> | Hne].
    + eexists roomId, _, _. rewrite lookup_insert_eq.
      split; [reflexivity |]. simpl. auto.
    + rewrite lookup_insert_ne in Hs by congruence.
      destruct (proj2 Hc _ _ Hs) as (rid & room & p & Hroom & Hin & Hsock).
      exists rid, room, p. rewrite lookup_insert_ne; [auto |].
      intros <-. congruence.
Qed.

Lemma room_ok_insert (reg : gmap string PlayerInfo) (roomId : string)
    (room : Room) (socketId : string) (info : PlayerInfo) :
  room_ok reg roomId room -> reg !! socketId = None ->
  room_ok (<[socketId := info]> reg) roomId room.
Proof.
  intros (Hinv & Hne & Hs & Hi & Hbind) Hfree.
  refine (conj Hinv (conj Hne (conj Hs (conj Hi _)))). intros p Hin.
  rewrite lookup_insert_ne; [auto |].
  intros Heq. rewrite Heq, (Hbind p Hin) in Hfree. discriminate.
Qed.

Lemma room_ok_delete (reg : gmap string PlayerInfo) (roomId : string)
    (room : Room) (socketId : string) :
  room_ok reg roomId room ->
  (forall p, In p (r_players room) -> p_socketId p <> socketId) ->
  room_ok (delete socketId reg) roomId room.
Proof.
  intros (Hinv & Hne & Hs & Hi & Hbind) Hother.
  refine (conj Hinv (conj Hne (conj Hs (conj Hi _)))). intros p Hin.
  rewrite lookup_delete_ne; [auto |].
  intros Heq. apply (Hother p Hin). auto.
Qed.

(** A socket bound to one room has no player in another. *)
Lemma consistent_elsewhere (st : Server) (socketId : string) (info : PlayerInfo)
    (roomId : string) (room : Room) :
  consistent st -> players st !! socketId = Some info ->
  rooms st !! roomId = Some room -> roomId <> pi_roomId info ->
  forall p, In p (r_players room) -> p_socketId p <> socketId.
Proof.
  intros Hc Hinfo Hroom Hne p Hin Heq.
  pose proof (consistent_member st roomId room p Hc Hroom Hin) as Hb.
  rewrite Heq, Hinfo in Hb. injection Hb as ->. simpl in Hne. congruence.
Qed.

Lemma consistent_join (data : JoinRoomData) (socketId playerId : string)
    (now : Z) (st : Server) :
  consistent st ->
  players st !! socketId = None ->
  (forall room p, rooms st !! jd_roomId data = Some room ->
     In p (r_players room) -> p_id p <> playerId) ->
  consistent (snd (joinRoom data socketId playerId now st)).
Proof.
  intros Hc Hfree Hfresh. unfold joinRoom.
  destruct (rooms st !! jd_roomId data) as [room |] eqn:Hroom; [| exact Hc].
  repeat case_match; try exact Hc.
  destruct (proj1 Hc _ _ Hroom) as ((Hcount & Hhost) & Hne & Hs & Hi & Hbind).
  split; simpl.
  - intros k r Hk. destruct (decide (k = jd_roomId data)) as [-> | Hk'].
    + rewrite lookup_insert_eq in Hk. injection Hk as <-.
      unfold room_ok, room_invariant. simpl.
      split; [split |]; [| | split; [| split; [| split]]].
      * rewrite length_app, Hcount. simpl. lia.
      * intros _. destruct (Hhost Hne) as (h & Hf & Hid).
        exists h. rewrite List.filter_app, Hf. auto.
      * intros H'. apply app_eq_nil in H' as [_ H']. discriminate.
      * rewrite map_app. apply NoDup_app. split; [exact Hs |].
        split; [| apply NoDup_singleton].
        intros x Hx Hx'. apply list_elem_of_singleton in Hx' as ->.
        apply list_elem_of_In, in_map_iff in Hx as (q & Hq & Hin).
        simpl in Hq. rewrite <- Hq, (Hbind q Hin) in Hfree. discriminate.
      * rewrite map_app. apply NoDup_app. split; [exact Hi |].
        split; [| apply NoDup_singleton].
        intros x Hx Hx'. apply list_elem_of_singleton in Hx' as ->.
        apply list_elem_of_In, in_map_iff in Hx as (q & Hq & Hin).
        simpl in Hq. apply (Hfresh room q eq_refl Hin Hq).
      * intros p Hin. apply in_app_iff in Hin as [Hin | [<- | []]].
        -- rewrite lookup_insert_ne; [auto |].
           intros Heq. rewrite Heq, (Hbind p Hin) in Hfree. discriminate.
        -- simpl. apply lookup_insert_eq.
    + rewrite lookup_insert_ne in Hk by congruence.
      apply room_ok_insert; [apply (proj1 Hc); assumption | assumption].
  - intros s info Hinfo. destruct (decide (s = socketId)) as [-> | Hs'].
    + eexists (jd_roomId data), _,
        (mkPlayer playerId (jd_playerName data) socketId false false now).
      rewrite lookup_insert_eq.
      split; [reflexivity |]. simpl. split; [| reflexivity].
      apply in_app_iff. right. left. reflexivity.
    + rewrite lookup_insert_ne in Hinfo by congruence.
      destruct (proj2 Hc _ _ Hinfo) as (rid & room0 & p & Hroom0 & Hin & Hsock).
      destruct (decide (rid = jd_roomId data)) as [-> | Hrid].
      * eexists (jd_roomId data), _, p. rewrite lookup_insert_eq.
        split; [reflexivity |]. simpl. split; [| assumption].
        apply in_app_iff. left. congruence.
      * exists rid, room0, p. rewrite lookup_insert_ne by congruence. auto.
Qed.

(** Removing one player from a room in order leaves a room in order,
    provided somebody stays and exactly one of those who stay is host. *)
Lemma room_ok_shrink (reg : gmap string PlayerInfo) (roomId : string)
    (room room' : Room) (gone : string) :
  room_ok reg roomId room ->
  r_currentPlayers room' = r_currentPlayers room - 1 ->
  S (length (r_players room')) = length (r_players room) ->
  r_players room' <> [] ->
  NoDup (map p_socketId (r_players room')) ->
  NoDup (map p_id (r_players room')) ->
  (exists h, List.filter p_isHost (r_players room') = [h]
             /\ r_hostId room' = p_id h) ->
  (forall q, In q (r_players room') ->
     p_socketId q <> gone
     /\ exists q0, In q0 (r_players room)
                   /\ p_socketId q0 = p_socketId q /\ p_id q0 = p_id q) ->
  room_ok (delete gone reg) roomId room'.
Proof.
  intros ((Hcount & _) & _ & _ & _ & Hbind) Hcp Hlen Hne Hs Hi Hhost Hfrom.
  unfold room_ok, room_invariant.
  split; [split; [lia | auto] |]. repeat (split; [assumption |]).
  intros q Hq. destruct (Hfrom q Hq) as (Hsock & q0 & Hq0 & Hs0 & Hi0).
  rewrite lookup_delete_ne by congruence.
  rewrite <- Hs0, <- Hi0. auto.
Qed.

Lemma others_drop_key (socketId : string) (ps : list RoomPlayer) :
  others socketId ps = drop_key p_socketId socketId ps.
Proof. reflexivity. Qed.

Lemma without_id_drop_key (pid : string) (ps : list RoomPlayer) :
  without_id pid ps = drop_key p_id pid ps.
Proof. reflexivity. Qed.

(** The hosts among those who stay when the socket of [p] leaves. *)
Lemma others_hosts (room : Room) (p h : RoomPlayer) :
  NoDup (map p_socketId (r_players room)) ->
  NoDup (map p_id (r_players room)) ->
  In p (r_players room) ->
  List.filter p_isHost (r_players room) = [h] ->
  List.filter p_isHost (others (p_socketId p) (r_players room))
  = if String.eqb (p_id h) (p_id p) then [] else [h].
Proof.
  intros Hs Hi Hin Hf. destruct (filter_isHost_host _ _ Hf) as [Hh _].
  rewrite others_drop_key, drop_key_filter, Hf. simpl.
  destruct (String.eqb_spec (p_id h) (p_id p)) as [Heq | Hne].
  - rewrite (NoDup_key_inj p_id _ h p Hi Hh Hin Heq), String.eqb_refl.
    reflexivity.
  - destruct (String.eqb_spec (p_socketId h) (p_socketId p)) as [Heq |];
      [| reflexivity].
    rewrite (NoDup_key_inj p_socketId _ h p Hs Hh Hin Heq) in Hne. congruence.
Qed.

Lemma consistent_leave (socketId : string) (st : Server) :
  consistent st -> consistent (snd (leaveRoom socketId st)).
Proof.
  intros Hc. unfold leaveRoom.
  destruct (players st !! socketId) as [info |] eqn:Hinfo; [| exact Hc].
  destruct (consistent_bound st socketId info Hc Hinfo)
    as (room & p & Hroom & Hin & Hsock & Hid).
  rewrite Hroom. simpl.
  pose proof (proj1 Hc _ _ Hroom) as Hok.
  destruct Hok as ((Hcount & Hhost) & Hne & Hs & Hi & Hbind).
  destruct (Hhost Hne) as (h & Hf & Hhid).
  pose proof (drop_key_length p_socketId _ p Hs Hin) as Hlen.
  pose proof (others_hosts room p h Hs Hi Hin Hf) as Hhosts.
  pose proof (drop_key_NoDup p_socketId p_socketId socketId _ Hs) as Hs'.
  pose proof (drop_key_NoDup p_socketId p_id socketId _ Hi) as Hi'.
  assert (Hmem : forall q, In q (others socketId (r_players room)) <->
                           In q (r_players room) /\ p_socketId q <> socketId)
    by (intros q; apply drop_key_In).
  rewrite Hsock in Hlen, Hhosts. rewrite <- others_drop_key in Hlen, Hs', Hi'.
  (* the rooms other than the one left, and the sockets other than the leaver *)
  assert (Hrest : forall k r, k <> pi_roomId info -> rooms st !! k = Some r ->
                    room_ok (delete socketId (players st)) k r).
  { intros k r Hk Hr. apply room_ok_delete; [apply (proj1 Hc); assumption |].
    apply (consistent_elsewhere st socketId info k r); assumption. }
  destruct (others socketId (r_players room)) as [| newHost rest] eqn:Hoth.
  - (* the room is deleted *)
    split; simpl.
    + intros k r Hr. destruct (decide (k = pi_roomId info)) as [-> | Hk].
      * rewrite lookup_delete_eq in Hr. discriminate.
      * rewrite lookup_delete_ne in Hr by congruence. auto.
    + intros s i Hi0. destruct (decide (s = socketId)) as [-> | Hs0].
      * rewrite lookup_delete_eq in Hi0. discriminate.
      * rewrite lookup_delete_ne in Hi0 by congruence.
        destruct (proj2 Hc _ _ Hi0) as (rid & r & q & Hr & Hq & Hqs).
        exists rid, r, q. rewrite lookup_delete_ne; [auto |].
        intros <-. rewrite Hroom in Hr. injection Hr as <-.
        apply (Hmem q). split; congruence.
  - (* somebody stays *)
    assert (Hstay : forall room',
              r_currentPlayers room' = r_currentPlayers room - 1 ->
              map p_socketId (r_players room') = map p_socketId (newHost :: rest) ->
              map p_id (r_players room') = map p_id (newHost :: rest) ->
              (exists h', List.filter p_isHost (r_players room') = [h']
                          /\ r_hostId room' = p_id h') ->
              (forall q, In q (r_players room') ->
                 exists q0, In q0 (newHost :: rest)
                            /\ p_socketId q0 = p_socketId q /\ p_id q0 = p_id q) ->
              (forall q0, In q0 (newHost :: rest) ->
                 exists q, In q (r_players room')
                           /\ p_socketId q = p_socketId q0) ->
              consistent
                (mkServer (<[pi_roomId info := room']> (rooms st))
                          (delete socketId (players st)))).
    { intros room' Hcp Hsm Him Hh' Hfrom Hto. split; simpl.
      - intros k r Hr. destruct (decide (k = pi_roomId info)) as [-> | Hk].
        + rewrite lookup_insert_eq in Hr. injection Hr as <-.
          apply (room_ok_shrink (players st) (pi_roomId info) room room' socketId);
            auto.
          * repeat split; auto.
          * rewrite <- Hlen. f_equal.
            rewrite <- (length_map p_id), Him, length_map. reflexivity.
          * intros Hnil. rewrite Hnil in Hsm. discriminate.
          * rewrite Hsm. exact Hs'.
          * rewrite Him. exact Hi'.
          * intros q Hq. destruct (Hfrom q Hq) as (q0 & Hq0 & Hs0 & Hi0).
            apply Hmem in Hq0 as [Hq0 Hne0]. split; [congruence | eauto].
        + rewrite lookup_insert_ne in Hr by congruence. auto.
      - intros s i Hi0. destruct (decide (s = socketId)) as [-> | Hs0].
        + rewrite lookup_delete_eq in Hi0. discriminate.
        + rewrite lookup_delete_ne in Hi0 by congruence.
          destruct (proj2 Hc _ _ Hi0) as (rid & r & q & Hr & Hq & Hqs).
          destruct (decide (rid = pi_roomId info)) as [-> | Hrid].
          * rewrite Hroom in Hr. injection Hr as <-.
            destruct (Hto q) as (q' & Hq' & Hqs');
              [apply Hmem; split; congruence |].
            exists (pi_roomId info), room', q'. rewrite lookup_insert_eq.
            repeat split; [assumption | congruence].
          * exists rid, r, q. rewrite lookup_insert_ne by congruence. auto. }
    destruct (String.eqb_spec (r_hostId room) (pi_playerId info)) as [Hh | Hh].
    + (* the host left: the first who stays is promoted *)
      assert (String.eqb (p_id h) (p_id p) = true) as Heq
        by (apply String.eqb_eq; congruence).
      rewrite Heq in Hhosts. simpl in Hhosts.
      apply Hstay; simpl; try reflexivity.
      * exists (set_isHost true newHost). split; [| reflexivity].
        destruct (p_isHost newHost); [discriminate |]. rewrite Hhosts.
        reflexivity.
      * intros q [<- | Hq]; [exists newHost | exists q]; simpl; auto.
      * intros q0 [<- | Hq]; [exists (set_isHost true newHost) | exists q0];
          simpl; auto.
    + (* another player left *)
      assert (String.eqb (p_id h) (p_id p) = false) as Hneq
        by (apply String.eqb_neq; congruence).
      rewrite Hneq in Hhosts.
      apply Hstay; simpl; try reflexivity; eauto.
Qed.

Lemma consistent_kick (connected : string -> bool)
    (socketId roomId targetPlayerId : string) (st : Server) :
  consistent st ->
  consistent (fst (on_kick_player connected socketId roomId targetPlayerId st)).
Proof.
  intros Hc. unfold on_kick_player.
  destruct (players st !! socketId) as [info |] eqn:Hinfo; [| exact Hc].
  destruct (negb (String.eqb (pi_roomId info) roomId)); [exact Hc |].
  destruct (rooms st !! pi_roomId info) as [room |] eqn:Hroom; [| exact Hc].
  destruct (negb (String.eqb (r_hostId room) (pi_playerId info))); [exact Hc |].
  destruct (find_by_id targetPlayerId (r_players room)) as [t |] eqn:Hfind;
    [| exact Hc].
  destruct (p_isHost t) eqn:Htarget; [exact Hc |]. simpl.
  apply find_by_id_In in Hfind as [Hin Htid]. subst targetPlayerId.
  pose proof (proj1 Hc _ _ Hroom) as Hok.
  destruct Hok as ((Hcount & Hhost) & Hne & Hs & Hi & Hbind).
  destruct (Hhost Hne) as (h & Hf & Hhid).
  destruct (filter_isHost_host _ _ Hf) as [Hh Hhh].
  pose proof (drop_key_length p_id _ t Hi Hin) as Hlen.
  pose proof (drop_key_In p_id (p_id t) (r_players room)) as Hmem.
  rewrite <- without_id_drop_key in Hlen.
  assert (Hkeep : forall q, In q (r_players room) -> q <> t ->
                            p_id q <> p_id t /\ p_socketId q <> p_socketId t).
  { intros q Hq Hqt. split; intros Heq; apply Hqt.
    - apply (NoDup_key_inj p_id _ q t Hi Hq Hin Heq).
    - apply (NoDup_key_inj p_socketId _ q t Hs Hq Hin Heq). }
  assert (Hht : h <> t) by (intros ->; congruence).
  split; simpl.
  - intros k r Hr. destruct (decide (k = pi_roomId info)) as [-> | Hk].
    + rewrite lookup_insert_eq in Hr. injection Hr as <-.
      apply (room_ok_shrink (players st) (pi_roomId info) room _ (p_socketId t));
        simpl; auto.
      * repeat split; auto.
      * intros Hnil. destruct (Hkeep h Hh Hht) as [Hid _].
        assert (In h (without_id (p_id t) (r_players room))) as H'
          by (apply Hmem; auto).
        rewrite Hnil in H'. destruct H'.
      * apply (drop_key_NoDup p_id p_socketId). exact Hs.
      * apply (drop_key_NoDup p_id p_id). exact Hi.
      * exists h. split; [| exact Hhid].
        rewrite without_id_drop_key, drop_key_filter, Hf. simpl.
        destruct (Hkeep h Hh Hht) as [Hid _].
        apply String.eqb_neq in Hid. rewrite Hid. reflexivity.
      * intros q Hq. apply Hmem in Hq as [Hq Hqid]. split; [| eauto].
        apply Hkeep; [assumption | congruence].
    + rewrite lookup_insert_ne in Hr by congruence.
      apply room_ok_delete; [apply (proj1 Hc); assumption |].
      apply (consistent_elsewhere st (p_socketId t) (mkInfo (p_id t) (pi_roomId info)) k r);
        auto.
  - intros s i Hi0. destruct (decide (s = p_socketId t)) as [-> | Hs0].
    + rewrite lookup_delete_eq in Hi0. discriminate.
    + rewrite lookup_delete_ne in Hi0 by congruence.
      destruct (proj2 Hc _ _ Hi0) as (rid & r & q & Hr & Hq & Hqs).
      destruct (decide (rid = pi_roomId info)) as [-> | Hrid].
      * rewrite Hroom in Hr. injection Hr as <-.
        eexists (pi_roomId info), _, q. rewrite lookup_insert_eq.
        split; [reflexivity |]. simpl. split; [| assumption].
        apply Hmem. split; [assumption |].
        apply Hkeep; [assumption | congruence].
      * exists rid, r, q. rewrite lookup_insert_ne by congruence. auto.
Qed.

(** ** Toggling the ready flag keeps the room in order *)

Lemma update_first_map (key : RoomPlayer -> string) (pid : string) (b : bool)
    (ps : list RoomPlayer) :
  (forall p, key (set_isReady b p) = key p) ->
  map key (update_first pid (set_isReady b) ps) = map key ps.
Proof.
  intros Hkey. induction ps as [| p ps IH]; simpl; [reflexivity |].
  destruct (String.eqb (p_id p) pid); simpl; [rewrite Hkey | rewrite IH];
    reflexivity.
Qed.

Lemma update_first_hosts (pid : string) (b : bool) (ps : list RoomPlayer)
    (player : RoomPlayer) :
  find_by_id pid ps = Some player -> p_isHost player = false ->
  List.filter p_isHost (update_first pid (set_isReady b) ps)
  = List.filter p_isHost ps.
Proof.
  unfold find_by_id. induction ps as [| p ps IH]; simpl; [reflexivity |].
  destruct (String.eqb (p_id p) pid); simpl.
  - intros [= ->] ->. reflexivity.
  - intros Hfind Hhost. rewrite (IH Hfind Hhost). reflexivity.
Qed.

Lemma update_first_In (pid : string) (b : bool) (ps : list RoomPlayer)
    (q : RoomPlayer) :
  In q (update_first pid (set_isReady b) ps) ->
  exists q0, In q0 ps /\ p_socketId q0 = p_socketId q /\ p_id q0 = p_id q.
Proof.
  induction ps as [| p ps IH]; simpl; [tauto |].
  destruct (String.eqb (p_id p) pid); simpl.
  - intros [<- | Hq]; [exists p | exists q]; simpl; auto.
  - intros [<- | Hq]; [exists p; auto |].
    destruct (IH Hq) as (q0 & Hq0 & Heq). exists q0. auto.
Qed.

Lemma update_first_In_inv (pid : string) (b : bool) (ps : list RoomPlayer)
    (q0 : RoomPlayer) :
  In q0 ps ->
  exists q, In q (update_first pid (set_isReady b) ps)
            /\ p_socketId q = p_socketId q0.
Proof.
  induction ps as [| p ps IH]; simpl; [tauto |].
  destruct (String.eqb (p_id p) pid); simpl.
  - intros [<- | Hq]; [exists (set_isReady b p) | exists q0]; simpl; auto.
  - intros [<- | Hq]; [exists p; auto |].
    destruct (IH Hq) as (q & Hq' & Heq). exists q. auto.
Qed.

(** Replacing a stored room by one with the same count and host id and
    with players on the same sockets under the same ids. *)
Lemma consistent_replace (st : Server) (roomId : string) (room room' : Room) :
  consistent st ->
  rooms st !! roomId = Some room ->
  r_currentPlayers room' = r_currentPlayers room ->
  r_hostId room' = r_hostId room ->
  map p_socketId (r_players room') = map p_socketId (r_players room) ->
  map p_id (r_players room') = map p_id (r_players room) ->
  List.filter p_isHost (r_players room') = List.filter p_isHost (r_players room) ->
  (forall q, In q (r_players room') ->
     exists q0, In q0 (r_players room)
                /\ p_socketId q0 = p_socketId q /\ p_id q0 = p_id q) ->
  (forall q0, In q0 (r_players room) ->
     exists q, In q (r_players room') /\ p_socketId q = p_socketId q0) ->
  consistent (mkServer (<[roomId := room']> (rooms st)) (players st)).
Proof.
  intros Hc Hroom Hcp Hhid Hsm Him Hfm Hfrom Hto.
  pose proof (proj1 Hc _ _ Hroom) as Hok.
  destruct Hok as ((Hcount & Hhost) & Hne & Hs & Hi & Hbind).
  assert (Hlen : length (r_players room') = length (r_players room))
    by (rewrite <- (length_map p_id), Him, length_map; reflexivity).
  split; simpl.
  - intros k r Hr. destruct (decide (k = roomId)) as [-> | Hk].
    + rewrite lookup_insert_eq in Hr. injection Hr as <-.
      unfold room_ok, room_invariant. rewrite Hcp, Hlen, Hfm, Hhid, Hsm, Him.
      repeat split; auto.
      * intros Hnil. apply Hne. destruct (r_players room); [reflexivity |].
        rewrite Hnil in Hlen. discriminate.
      * intros q Hq. destruct (Hfrom q Hq) as (q0 & Hq0 & Hs0 & Hi0).
        rewrite <- Hs0, <- Hi0. auto.
    + rewrite lookup_insert_ne in Hr by congruence. apply (proj1 Hc). assumption.
  - intros s i Hi0.
    destruct (proj2 Hc _ _ Hi0) as (rid & r & q & Hr & Hq & Hqs).
    destruct (decide (rid = roomId)) as [-> | Hrid].
    + rewrite Hroom in Hr. injection Hr as <-.
      destruct (Hto q Hq) as (q' & Hq' & Hqs').
      exists roomId, room', q'. rewrite lookup_insert_eq.
      repeat split; [assumption | congruence].
    + exists rid, r, q. rewrite lookup_insert_ne by congruence. auto.
Qed.

Lemma consistent_toggle (socketId roomId : string) (st : Server) :
  consistent st -> consistent (fst (on_toggle_ready socketId roomId st)).
Proof.
  intros Hc. unfold on_toggle_ready.
  destruct (players st !! socketId) as [info |] eqn:Hinfo; [| exact Hc].
  destruct (negb (String.eqb (pi_roomId info) roomId)); [exact Hc |].
  destruct (rooms st !! pi_roomId info) as [room |] eqn:Hroom; [| exact Hc].
  destruct (find_by_id (pi_playerId info) (r_players room)) as [player |]
    eqn:Hfind; [| exact Hc].
  destruct (p_isHost player) eqn:Hhost; [exact Hc |]. simpl.
  apply (consistent_replace st (pi_roomId info) room); simpl; auto.
  - apply update_first_map. reflexivity.
  - apply update_first_map. reflexivity.
  - apply (update_first_hosts _ _ _ player); assumption.
  - apply update_first_In.
  - apply update_first_In_inv.
Qed.

Lemma consistent_start (socketId roomId : string) (st : Server) :
  consistent st -> consistent (fst (on_start_game socketId roomId st)).
Proof.
  intros Hc. unfold on_start_game.
  destruct (players st !! socketId) as [info |] eqn:Hinfo; [| exact Hc].
  destruct (negb (String.eqb (pi_roomId info) roomId)); [exact Hc |].
  destruct (rooms st !! pi_roomId info) as [room |] eqn:Hroom; [| exact Hc].
  destruct (negb (String.eqb (r_hostId room) (pi_playerId info))); [exact Hc |].
  destruct (length (r_players room) <? 2)%nat; [exact Hc |].
  destruct (negb (allReady (r_players room))); [exact Hc |]. simpl.
  apply (consistent_replace st (pi_roomId info) room); simpl; eauto.
Qed.

(** Every handler keeps the state consistent when the request is
    admissible. *)
Lemma consistent_handle (rq : Request) (st : Server) :
  consistent st -> admissible rq st -> consistent (fst (handle rq st)).
Proof.
  intros Hc Hadm. destruct rq; simpl in *.
  - destruct Hadm as [Hfree Hfresh].
    apply (consistent_create data socketId roomId playerId now st Hc Hfree Hfresh).
  - destruct Hadm as [Hfree Hfresh].
    pose proof (consistent_join data socketId playerId now st Hc Hfree Hfresh) as H.
    unfold on_join_room. destruct (joinRoom data socketId playerId now st) as [[e | r p] st'];
      exact H.
  - unfold on_leave_room.
    destruct (players st !! socketId) as [info |] eqn:Hinfo; [| exact Hc].
    destruct (consistent_bound st socketId info Hc Hinfo) as (room & p & Hroom & _).
    rewrite Hroom. pose proof (consistent_leave socketId st Hc) as H.
    destruct (leaveRoom socketId st). exact H.
  - apply consistent_toggle. exact Hc.
  - apply consistent_start. exact Hc.
  - exact Hc.
  - apply consistent_kick. exact Hc.
  - unfold on_disconnect.
    destruct (players st !! socketId) as [info |] eqn:Hinfo; [| exact Hc].
    pose proof (consistent_leave socketId st Hc) as H.
    destruct (leaveRoom socketId st). exact H.
Qed.

Lemma consistent_run (rqs : list Request) (st : Server) :
  consistent st -> admissible_trace rqs st -> consistent (run rqs st).
Proof.
  revert st. induction rqs as [| rq rqs IH]; simpl; intros st Hc Hadm;
    [exact Hc |].
  destruct Hadm as [Hrq Hrest]. apply IH; [| exact Hrest].
  apply consistent_handle; assumption.
Qed.

(** X1. Along every trace of requests in which a socket creates or joins
    only while it is unbound and the drawn room codes and player ids are
    fresh, every stored room satisfies the room invariant: [currentPlayers]
    is the length of [players] and exactly one player is host, with the
    room's [hostId] as its id. *)
Theorem room_invariant_preserved (rqs : list Request) (roomId : string)
    (room : Room) :
  admissible_trace rqs empty_server ->
  rooms (run rqs empty_server) !! roomId = Some room ->
  room_invariant room.
Proof.
  intros Hadm Hroom.
  pose proof (consistent_run rqs empty_server consistent_empty Hadm) as Hc.
  apply (proj1 Hc) in Hroom. apply Hroom.
Qed.

(** The invariant after the disciplined trace, where B is alone and host. *)
Lemma room_invariant_preserved_witness :
  exists room,
    rooms (run disciplined_trace empty_server) !! "ABC123" = Some room
    /\ map p_id (r_players room) = ["b"]
    /\ room_invariant room.
Proof.
  eexists. split; [vm_compute; reflexivity |]. split; [reflexivity |].
  apply (room_invariant_preserved disciplined_trace "ABC123");
    [| vm_compute; reflexivity].
  cbn [disciplined_trace demo_create demo_join admissible_trace admissible].
  repeat split; try (vm_compute; reflexivity);
    intros room p Hroom Hin Heq; vm_compute in Hroom; injection Hroom as <-;
    simpl in Hin; repeat destruct Hin as [<- | Hin]; try discriminate;
    destruct Hin.
Defined.

(** * Further properties of the server *)

(** ** Capacity *)

Lemma all_rooms_insert (P : Room -> Prop) (m : gmap string Room)
    (reg : gmap string PlayerInfo) (k : string) (r : Room) :
  (forall k' r', m !! k' = Some r' -> P r') -> P r ->
  all_rooms P (mkServer (<[k := r]> m) reg).
Proof.
  intros Hall Hr k' r' Hk. simpl in Hk.
  destruct (decide (k = k')) as [-> | Hne].
  - rewrite lookup_insert_eq in Hk. congruence.
  - rewrite lookup_insert_ne in Hk by assumption. eauto.
Qed.

Lemma all_rooms_delete (P : Room -> Prop) (m : gmap string Room)
    (reg : gmap string PlayerInfo) (k : string) :
  (forall k' r', m !! k' = Some r' -> P r') ->
  all_rooms P (mkServer (delete k m) reg).
Proof.
  intros Hall k' r' Hk. simpl in Hk.
  destruct (decide (k = k')) as [-> | Hne].
  - rewrite lookup_delete_eq in Hk. discriminate.
  - rewrite lookup_delete_ne in Hk by assumption. eauto.
Qed.

Lemma leaveRoom_capped (socketId : string) (st : Server) :
  all_rooms capped st -> all_rooms capped (snd (leaveRoom socketId st)).
Proof.
  intros Hall. unfold leaveRoom.
  destruct (players st !! socketId) as [info |]; [| exact Hall].
  destruct (rooms st !! pi_roomId info) as [room |] eqn:Hroom; [| exact Hall].
  pose proof (Hall _ _ Hroom) as Hcap. unfold capped in Hcap. simpl.
  destruct (others socketId (r_players room)); [| destruct (String.eqb _ _)].
  - apply all_rooms_delete. exact Hall.
  - apply all_rooms_insert; [exact Hall |]. unfold capped. simpl. lia.
  - apply all_rooms_insert; [exact Hall |]. unfold capped. simpl. lia.
Qed.

Lemma handle_capped (rq : Request) (st : Server) :
  all_rooms capped st -> all_rooms capped (fst (handle rq st)).
Proof.
  intros Hall. destruct rq; simpl.
  - apply all_rooms_insert; [exact Hall |]. unfold capped. simpl. lia.
  - unfold on_join_room, joinRoom.
    destruct (rooms st !! jd_roomId data) as [room |] eqn:Hroom; [| exact Hall].
    pose proof (Hall _ _ Hroom) as Hcap. unfold capped in Hcap.
    destruct (r_maxPlayers room <=? r_currentPlayers room) eqn:Hfull;
      [exact Hall |].
    destruct (_ && _); [exact Hall |].
    destruct (r_gameInProgress room); [exact Hall |]. simpl.
    apply all_rooms_insert; [exact Hall |]. unfold capped. simpl.
    apply Z.leb_gt in Hfull. lia.
  - unfold on_leave_room.
    destruct (players st !! socketId) as [info |] eqn:Hinfo; [| exact Hall].
    destruct (rooms st !! pi_roomId info) as [room |] eqn:Hroom; [| exact Hall].
    pose proof (leaveRoom_capped socketId st Hall) as H.
    destruct (leaveRoom socketId st). exact H.
  - unfold on_toggle_ready.
    repeat case_match; try exact Hall. simpl.
    apply all_rooms_insert; [exact Hall |].
    match goal with H : rooms st !! _ = Some _ |- _ => apply Hall in H end.
    assumption.
  - unfold on_start_game.
    repeat case_match; try exact Hall. simpl.
    apply all_rooms_insert; [exact Hall |].
    match goal with H : rooms st !! _ = Some _ |- _ => apply Hall in H end.
    assumption.
  - exact Hall.
  - unfold on_kick_player.
    repeat case_match; try exact Hall; simpl;
      (apply all_rooms_insert; [exact Hall |]);
      match goal with H : rooms st !! _ = Some _ |- _ => apply Hall in H end;
      unfold capped in *; simpl; lia.
  - unfold on_disconnect.
    destruct (players st !! socketId) as [info |] eqn:Hinfo; [| exact Hall].
    pose proof (leaveRoom_capped socketId st Hall) as H.
    destruct (leaveRoom socketId st). exact H.
Qed.

Lemma run_capped (rqs : list Request) (st : Server) :
  all_rooms capped st -> all_rooms capped (run rqs st).
Proof.
  unfold run. revert st. induction rqs as [| rq rqs IH]; intros st Hall; simpl;
    [exact Hall |].
  apply IH. apply handle_capped. exact Hall.
Qed.

Lemma empty_capped : all_rooms capped empty_server.
Proof. intros k r Hk. simpl in Hk. rewrite lookup_empty in Hk. discriminate. Qed.

(** X2. For rooms whose [maxPlayers] is an integer, as this model takes
    every number to be (the server stores [data.maxPlayers] as the client
    sent it): in every state the server reaches from the empty one, whatever
    requests arrive, the [currentPlayers] count of every stored room is at
    most its [maxPlayers] (or 1, for the creator of a room with a smaller
    capacity): [joinRoom] never admits a player into a full room. *)
Theorem currentPlayers_capped (rqs : list Request) (k : string) (room : Room) :
  rooms (run rqs empty_server) !! k = Some room ->
  r_currentPlayers room <= Z.max 1 (r_maxPlayers room).
Proof. apply (run_capped rqs empty_server empty_capped). Qed.

(** X3. For rooms whose [maxPlayers] is an integer: on disciplined traces
    the number of players of a room never exceeds that bound. *)
Theorem players_within_capacity (rqs : list Request) (k : string) (room : Room) :
  admissible_trace rqs empty_server ->
  rooms (run rqs empty_server) !! k = Some room ->
  Z.of_nat (length (r_players room)) <= Z.max 1 (r_maxPlayers room).
Proof.
  intros Hadm Hroom.
  pose proof (consistent_run rqs empty_server consistent_empty Hadm) as Hc.
  destruct (proj1 Hc _ _ Hroom) as ((Hcount & _) & _).
  rewrite <- Hcount. apply (run_capped rqs empty_server empty_capped k room Hroom).
Qed.

(** ** Each request is local *)

Lemma leaveRoom_local (socketId : string) (st : Server) (info : PlayerInfo) :
  players st !! socketId = Some info ->
  (forall k', k' <> pi_roomId info ->
     rooms (snd (leaveRoom socketId st)) !! k' = rooms st !! k')
  /\ (forall s', s' <> socketId ->
        players (snd (leaveRoom socketId st)) !! s' = players st !! s').
Proof.
  intros Hinfo. unfold leaveRoom. rewrite Hinfo.
  destruct (rooms st !! pi_roomId info) as [room |]; [| auto]. simpl.
  destruct (others socketId (r_players room)); [| destruct (String.eqb _ _)];
    simpl; split; intros x Hx;
    rewrite ?lookup_delete_ne, ?lookup_insert_ne by congruence; reflexivity.
Qed.

(** X4. A request changes no room but the one it is about and no registry
    entry but the one of its socket (for a kick, of the target's socket):
    every other room and every other entry is after the request what it was
    before. *)
Theorem handle_local (rq : Request) (st : Server) :
  (forall k', k' <> room_of rq st ->
     rooms (fst (handle rq st)) !! k' = rooms st !! k')
  /\ (forall s', s' <> socket_of rq st ->
        players (fst (handle rq st)) !! s' = players st !! s').
Proof.
  destruct rq; simpl.
  - split; intros x Hx; rewrite lookup_insert_ne by congruence; reflexivity.
  - unfold on_join_room, joinRoom.
    repeat case_match; simplify_eq; simpl; split; intros x Hx;
      rewrite ?lookup_insert_ne by congruence; reflexivity.
  - unfold on_leave_room.
    destruct (players st !! socketId) as [info |] eqn:Hinfo; [| auto].
    destruct (rooms st !! pi_roomId info) as [room |].
    + pose proof (leaveRoom_local socketId st info Hinfo) as H.
      destruct (leaveRoom socketId st). exact H.
    + simpl. split; [auto |]. intros x Hx.
      rewrite lookup_delete_ne by congruence. reflexivity.
  - unfold on_toggle_ready.
    repeat case_match; simpl; split; intros x Hx; try reflexivity.
    match goal with H : negb (_ =? _)%string = false |- _ =>
      apply negb_false_iff, String.eqb_eq in H; rewrite H end.
    rewrite lookup_insert_ne by congruence. reflexivity.
  - unfold on_start_game.
    repeat case_match; simpl; split; intros x Hx; try reflexivity.
    match goal with H : negb (pi_roomId _ =? _)%string = false |- _ =>
      apply negb_false_iff, String.eqb_eq in H; rewrite H end.
    rewrite lookup_insert_ne by congruence. reflexivity.
  - auto.
  - unfold on_kick_player.
    destruct (players st !! socketId) as [info |]; [| auto].
    destruct (String.eqb_spec (pi_roomId info) roomId) as [<- | Hne];
      simpl; [| auto].
    destruct (rooms st !! pi_roomId info) as [room |]; [| auto].
    destruct (negb (String.eqb (r_hostId room) (pi_playerId info))); [auto |].
    destruct (find_by_id targetPlayerId (r_players room)) as [t |]; [| auto].
    destruct (p_isHost t); [auto |].
    simpl. split; intros x Hx.
    + rewrite lookup_insert_ne by congruence. reflexivity.
    + rewrite lookup_delete_ne by congruence. reflexivity.
  - unfold on_disconnect.
    destruct (players st !! socketId) as [info |] eqn:Hinfo; [| auto].
    pose proof (leaveRoom_local socketId st info Hinfo) as H.
    destruct (leaveRoom socketId st). exact H.
Qed.

(** ** Toggling the ready flag *)

Lemma set_players_same (r : Room) : set_players (r_players r) r = r.
Proof. destruct r. reflexivity. Qed.

Lemma update_first_find (pid : string) (b : bool) (ps : list RoomPlayer)
    (p : RoomPlayer) :
  find_by_id pid ps = Some p ->
  find_by_id pid (update_first pid (set_isReady b) ps) = Some (set_isReady b p).
Proof.
  unfold find_by_id. induction ps as [| q ps IH]; simpl; [discriminate |].
  destruct (String.eqb (p_id q) pid) eqn:Hq; simpl.
  - intros [= ->]. rewrite Hq. reflexivity.
  - intros H. rewrite Hq. auto.
Qed.

Lemma update_first_undo (pid : string) (b : bool) (ps : list RoomPlayer)
    (p : RoomPlayer) :
  find_by_id pid ps = Some p ->
  update_first pid (set_isReady (p_isReady p))
    (update_first pid (set_isReady b) ps) = ps.
Proof.
  unfold find_by_id. induction ps as [| q ps IH]; simpl; [reflexivity |].
  destruct (String.eqb (p_id q) pid) eqn:Hq; simpl.
  - intros [= ->]. rewrite Hq. destruct p. reflexivity.
  - intros H. rewrite Hq. f_equal. auto.
Qed.

Lemma update_first_others (pid : string) (f : RoomPlayer -> RoomPlayer)
    (ps : list RoomPlayer) (q : RoomPlayer) :
  In q ps -> p_id q <> pid -> In q (update_first pid f ps).
Proof.
  induction ps as [| p ps IH]; simpl; [tauto |].
  intros [-> | Hq] Hne.
  - apply String.eqb_neq in Hne. rewrite Hne. left. reflexivity.
  - destruct (String.eqb (p_id p) pid); right; auto.
Qed.

(** X5. A toggle-ready request fails with Mismatch unless the socket is
    bound to the named room, with RoomNotFound when that room is not stored,
    and with HostCannotToggle when the bound player is not in the room or is
    marked host; every failure leaves the state as it was.  Otherwise it
    flips the [isReady] flag of the bound player and of nobody else, keeps
    ids, host flags, the count and the registry, sends the updated room to
    the room's group and answers with the new flag. *)
Theorem toggle_ready_cases (socketId roomId : string) (st : Server) :
  ((forall info, players st !! socketId = Some info -> pi_roomId info <> roomId) ->
   on_toggle_ready socketId roomId st = (st, [Callback (Failure Mismatch)]))
  /\
  (forall info,
     players st !! socketId = Some info -> pi_roomId info = roomId ->
     (rooms st !! roomId = None ->
      on_toggle_ready socketId roomId st = (st, [Callback (Failure RoomNotFound)]))
     /\
     (forall room,
        rooms st !! roomId = Some room ->
        (find_by_id (pi_playerId info) (r_players room) = None ->
         on_toggle_ready socketId roomId st
         = (st, [Callback (Failure HostCannotToggle)]))
        /\
        (forall player,
           find_by_id (pi_playerId info) (r_players room) = Some player ->
           (p_isHost player = true ->
            on_toggle_ready socketId roomId st
            = (st, [Callback (Failure HostCannotToggle)]))
           /\
           (p_isHost player = false ->
            exists room',
              on_toggle_ready socketId roomId st
              = (mkServer (<[roomId := room']> (rooms st)) (players st),
                 [EmitToRoom roomId (ROOM_UPDATED room');
                  Callback (ReadyOk (negb (p_isReady player)))])
              /\ find_by_id (pi_playerId info) (r_players room')
                 = Some (set_isReady (negb (p_isReady player)) player)
              /\ (forall q, In q (r_players room) ->
                    p_id q <> pi_playerId info -> In q (r_players room'))
              /\ map p_id (r_players room') = map p_id (r_players room)
              /\ map p_isHost (r_players room') = map p_isHost (r_players room)
              /\ r_currentPlayers room' = r_currentPlayers room
              /\ r_hostId room' = r_hostId room)))).
Proof.
  unfold on_toggle_ready. split.
  - intros Hno. destruct (players st !! socketId) as [info |]; [| reflexivity].
    specialize (Hno info eq_refl). apply String.eqb_neq in Hno.
    rewrite Hno. reflexivity.
  - intros info -> <-. rewrite String.eqb_refl. simpl. split.
    + intros ->. reflexivity.
    + intros room ->. split.
      * intros ->. reflexivity.
      * intros player Hfind. rewrite Hfind. split.
        -- intros ->. reflexivity.
        -- intros ->. eexists. split; [reflexivity |]. simpl.
           split; [apply update_first_find; exact Hfind |].
           split; [intros q; apply update_first_others |].
           split; [apply update_first_map; reflexivity |].
           split; [| auto].
           clear Hfind. induction (r_players room) as [| q ps IH]; simpl;
             [reflexivity |].
           destruct (String.eqb (p_id q) (pi_playerId info)); simpl;
             [reflexivity | rewrite IH; reflexivity].
Qed.

(** X6. Toggling twice is a round trip: when a toggle-ready request
    succeeds, the same request sent again succeeds too and puts the state
    back exactly as it was before the first one. *)
Theorem toggle_ready_twice (socketId roomId : string) (st : Server) :
  failed (snd (on_toggle_ready socketId roomId st)) = false ->
  failed (snd (on_toggle_ready socketId roomId
                 (fst (on_toggle_ready socketId roomId st)))) = false
  /\ fst (on_toggle_ready socketId roomId
            (fst (on_toggle_ready socketId roomId st))) = st.
Proof.
  unfold on_toggle_ready at 1 3 5.
  destruct (players st !! socketId) as [info |] eqn:Hinfo; [| discriminate].
  destruct (negb (String.eqb (pi_roomId info) roomId)) eqn:Hrid;
    [discriminate |].
  destruct (rooms st !! pi_roomId info) as [room |] eqn:Hroom; [| discriminate].
  destruct (find_by_id (pi_playerId info) (r_players room)) as [player |]
    eqn:Hfind; [| discriminate].
  destruct (p_isHost player) eqn:Hhost; [discriminate |]. intros _. simpl.
  unfold on_toggle_ready. simpl.
  rewrite Hinfo, Hrid, lookup_insert_eq. simpl.
  rewrite (update_first_find _ _ _ _ Hfind). simpl. rewrite Hhost. simpl.
  split; [reflexivity |].
  rewrite negb_involutive, insert_insert_eq.
  rewrite (update_first_undo _ _ _ _ Hfind).
  replace (set_players (r_players room) _) with room by (destruct room; reflexivity).
  rewrite (insert_id _ _ _ Hroom). destruct st. reflexivity.
Qed.

(** ** Disconnect as an implicit leave *)

(** X7. When a socket is unbound, or bound to a room that is stored, its
    disconnect leaves the server in the same state as its leave-room request
    and sends the same events, without the [socket.leave].  Only for a stale
    entry (the bound room is gone) do the two differ: leave-room deletes the
    entry and sends nothing, disconnect keeps it and pushes the room list. *)
Theorem disconnect_as_leave (socketId : string) (st : Server) :
  (players st !! socketId = None
   \/ (exists info room, players st !! socketId = Some info
                         /\ rooms st !! pi_roomId info = Some room) ->
   fst (on_disconnect socketId st) = fst (on_leave_room socketId st)
   /\ snd (on_disconnect socketId st)
      = List.filter (fun o => negb (is_socket_leave o))
          (snd (on_leave_room socketId st)))
  /\
  (forall info,
     players st !! socketId = Some info ->
     rooms st !! pi_roomId info = None ->
     on_leave_room socketId st
     = (mkServer (rooms st) (delete socketId (players st)), [])
     /\ on_disconnect socketId st
        = (st, [EmitRoomsUpdated (getActiveRooms st)])).
Proof.
  unfold on_disconnect, on_leave_room. split.
  - intros [-> | (info & room & -> & Hroom)]; [auto |]. rewrite Hroom.
    destruct (leaveRoom socketId st) as [[| rid | r h p] st'] eqn:E; simpl; auto.
  - intros info Hinfo Hroom. rewrite Hinfo, Hroom. split; [reflexivity |].
    unfold leaveRoom. rewrite Hinfo, Hroom. reflexivity.
Qed.

(** ** The password of a new room *)

(** X8. A join of a freshly created room with room for more than one
    player succeeds exactly when the room was created without a password
    (none, or the empty string) or the supplied password is the one given at
    creation; otherwise it is answered WrongPassword. *)
Theorem password_gate (data : CreateRoomData) (socketId roomId playerId : string)
    (now : Z) (st : Server) (jdata : JoinRoomData) (socketId' playerId' : string)
    (now' : Z) :
  jd_roomId jdata = roomId ->
  1 < cd_maxPlayers data ->
  (joined (fst (joinRoom jdata socketId' playerId' now'
                  (snd (createRoom data socketId roomId playerId now st))))
   = true
   <-> truthy (cd_password data) = false
       \/ jd_password jdata = cd_password data)
  /\ (joined (fst (joinRoom jdata socketId' playerId' now'
                     (snd (createRoom data socketId roomId playerId now st))))
      = false ->
      fst (joinRoom jdata socketId' playerId' now'
             (snd (createRoom data socketId roomId playerId now st)))
      = JoinFail WrongPassword).
Proof.
  intros Hrid Hmax. unfold joinRoom, createRoom. simpl.
  rewrite Hrid, lookup_insert_eq. simpl.
  assert ((cd_maxPlayers data <=? 1) = false) as -> by (apply Z.leb_gt; lia).
  destruct (truthy (cd_password data)) eqn:Htruthy; simpl.
  - destruct (strict_eq (cd_password data) (jd_password jdata)) eqn:Heq; simpl.
    + apply strict_eq_spec in Heq. split; [| discriminate].
      split; auto.
    + apply strict_eq_false in Heq. split; [| reflexivity].
      split; [discriminate |]. intros [H | H]; [discriminate | congruence].
  - split; [| discriminate]. split; auto.
Qed.

(** ** The room list *)

(** X9. The room list holds exactly the public views of the stored rooms
    whose status is "waiting" and whose game is not in progress. *)
Theorem getActiveRooms_spec (st : Server) (j : Json) :
  In j (getActiveRooms st)
  <-> exists k room,
        rooms st !! k = Some room
        /\ r_status room = waiting
        /\ r_gameInProgress room = false
        /\ j = public_room room.
Proof.
  split.
  - intros H. apply getActiveRooms_In in H as (k & room & Hroom & Hl & ->).
    unfold listed in Hl. apply andb_true_iff in Hl as [Hs Hg].
    exists k, room. repeat split; auto.
    + destruct (r_status room); simpl in Hs; congruence.
    + destruct (r_gameInProgress room); simpl in Hg; congruence.
  - intros (k & room & Hroom & Hs & Hg & ->).
    unfold getActiveRooms. apply in_map. apply filter_In. split.
    + apply in_map_iff. exists (k, room). split; [reflexivity |].
      apply list_elem_of_In, elem_of_map_to_list. exact Hroom.
    + unfold listed. rewrite Hs, Hg. reflexivity.
Qed.

Lemma mentions_player_json_socketId (ps : list RoomPlayer) :
  ps <> [] -> mentions "socketId" (JArr (map player_json ps)) = true.
Proof. destruct ps as [| p ps]; [congruence |]. reflexivity. Qed.

(** X10. The public view of a room mentions neither a [password] nor a
    [socketId] property, while it shows the room's id, name, host name,
    capacity, count, [hasPassword] flag and one entry per player; the stored
    room object that the room events carry does mention the socket id of
    its players. *)
Theorem public_room_view (r : Room) :
  mentions "password" (public_room r) = false
  /\ mentions "socketId" (public_room r) = false
  /\ obj_get "id" (fields_of (public_room r)) = Some (JStr (r_id r))
  /\ obj_get "name" (fields_of (public_room r)) = Some (JStr (r_name r))
  /\ obj_get "hostName" (fields_of (public_room r)) = Some (JStr (r_hostName r))
  /\ obj_get "maxPlayers" (fields_of (public_room r))
     = Some (JNum (r_maxPlayers r))
  /\ obj_get "currentPlayers" (fields_of (public_room r))
     = Some (JNum (r_currentPlayers r))
  /\ obj_get "hasPassword" (fields_of (public_room r))
     = Some (JBool (r_hasPassword r))
  /\ obj_get "players" (fields_of (public_room r))
     = Some (JArr (map public_player (r_players r)))
  /\ (r_players r <> [] -> mentions "socketId" (room_json r) = true).
Proof.
  split; [apply mentions_public_room |].
  split.
  { unfold public_room, room_fields.
    pose proof (mentions_public_players "socketId" (r_players r)) as Hps.
    destruct (r_password r), (r_status r), (r_gameState r); cbn in *;
      rewrite Hps; try reflexivity; discriminate. }
  unfold public_room, room_json, room_fields.
  repeat split; try (destruct (r_password r); reflexivity).
  intros Hne. destruct (r_players r) as [| p ps]; [congruence |].
  destruct (r_password r); reflexivity.
Qed.

(** ** Starting a game, continued *)

Lemma set_started_twice (g : GameState) (r : Room) :
  set_started g (set_started g r) = set_started g r.
Proof. reflexivity. Qed.

(** X11. After a successful start-game the started room is in no room
    list: every listed view comes from a room stored under another code,
    unchanged by the start.  The handler has no guard against a second
    start: the host's request is accepted again and neither the state nor
    the events it sends differ from the first time. *)
Theorem start_game_unlists (socketId roomId : string) (st : Server) :
  failed (snd (on_start_game socketId roomId st)) = false ->
  (forall j, In j (getActiveRooms (fst (on_start_game socketId roomId st))) ->
     exists k room,
       k <> roomId /\ rooms st !! k = Some room
       /\ listed room = true /\ j = public_room room)
  /\ on_start_game socketId roomId (fst (on_start_game socketId roomId st))
     = on_start_game socketId roomId st.
Proof.
  intros Hok.
  assert (exists info room,
            players st !! socketId = Some info
            /\ pi_roomId info = roomId
            /\ rooms st !! roomId = Some room
            /\ negb (String.eqb (r_hostId room) (pi_playerId info)) = false
            /\ (length (r_players room) <? 2)%nat = false
            /\ negb (allReady (r_players room)) = false
            /\ on_start_game socketId roomId st
               = (mkServer (<[roomId := set_started initial_gameState room]>
                              (rooms st)) (players st),
                  [EmitToRoom roomId
                     (GAME_STARTED (set_started initial_gameState room));
                   EmitRoomsUpdated
                     (getActiveRooms
                        (mkServer
                           (<[roomId := set_started initial_gameState room]>
                              (rooms st)) (players st)));
                   Callback Ack]))
    as (info & room & Hinfo & Hrid & Hroom & Hhost & Hlen & Hready & Hfirst).
  { unfold on_start_game in *.
    destruct (players st !! socketId) as [info |]; [| discriminate].
    destruct (String.eqb_spec (pi_roomId info) roomId) as [<- | Hne];
      simpl in *; [| discriminate].
    destruct (rooms st !! pi_roomId info) as [room |]; [| discriminate].
    destruct (negb (String.eqb (r_hostId room) (pi_playerId info))) eqn:E1;
      [discriminate |].
    destruct (length (r_players room) <? 2)%nat eqn:E2; [discriminate |].
    destruct (negb (allReady (r_players room))) eqn:E3; [discriminate |].
    exists info, room. repeat split; auto. }
  rewrite Hfirst. simpl. split.
  - intros j Hj. apply getActiveRooms_In in Hj as (k & r & Hk & Hl & ->).
    simpl in Hk. destruct (decide (k = roomId)) as [-> | Hk'].
    + rewrite lookup_insert_eq in Hk. injection Hk as <-. discriminate.
    + rewrite lookup_insert_ne in Hk by congruence. eauto 6.
  - unfold on_start_game. simpl.
    rewrite Hinfo, Hrid, String.eqb_refl, lookup_insert_eq. simpl.
    rewrite Hhost, Hlen, Hready, insert_insert_eq. reflexivity.
Qed.

(** ** The clean-up of idle rooms *)

Lemma unbind_all_lookup (ps : list RoomPlayer) (reg : gmap string PlayerInfo)
    (s : string) :
  unbind_all ps reg !! s
  = if existsb (fun p => String.eqb (p_socketId p) s) ps then None else reg !! s.
Proof.
  unfold unbind_all. revert reg.
  induction ps as [| p ps IH]; intros reg; simpl; [reflexivity |].
  rewrite IH. destruct (String.eqb_spec (p_socketId p) s) as [-> | Hne]; simpl.
  - rewrite lookup_delete_eq. destruct (existsb _ ps); reflexivity.
  - rewrite lookup_delete_ne by assumption. reflexivity.
Qed.

Lemma sweep_fold (now : Z) (l : list (string * Room)) (st : Server)
    (outs : list SweepOut) (k s : string) :
  rooms (fst (fold_left (sweep_room now) l (st, outs))) !! k
  = (if swept_room now l k then None else rooms st !! k)
  /\ players (fst (fold_left (sweep_room now) l (st, outs))) !! s
     = (if swept_socket now l s then None else players st !! s).
Proof.
  revert st outs. induction l as [| [k0 r0] l IH]; intros st outs; simpl;
    [auto |].
  destruct (expired now r0) eqn:Hexp; simpl.
  - destruct (IH (mkServer (delete k0 (rooms st))
                           (unbind_all (r_players r0) (players st)))
                 (outs
                  ++ (if (0 <? length (r_players r0))%nat
                      then [EmitRoomDeleted k0 RoomDeletedMessage] else [])
                  ++ [SweepRoomsUpdated
                        (getActiveRooms
                           (mkServer (delete k0 (rooms st))
                              (unbind_all (r_players r0) (players st))))])%list)
      as [-> ->].
    simpl. rewrite unbind_all_lookup. split.
    + rewrite andb_true_r.
      destruct (String.eqb_spec k0 k) as [-> | Hne]; simpl.
      * rewrite lookup_delete_eq. destruct (swept_room now l k); reflexivity.
      * rewrite lookup_delete_ne by assumption. reflexivity.
    + destruct (existsb _ (r_players r0)); simpl; [| reflexivity].
      destruct (swept_socket now l s); reflexivity.
  - destruct (IH st outs) as [-> ->]. rewrite andb_false_r. simpl. auto.
Qed.

Lemma swept_room_spec (now : Z) (m : gmap string Room) (k : string) :
  swept_room now (map_to_list m) k = true
  <-> exists r, m !! k = Some r /\ expired now r = true.
Proof.
  unfold swept_room. rewrite existsb_exists. split.
  - intros ([k0 r] & Hin & H). simpl in H.
    apply andb_true_iff in H as [Hk H]. apply String.eqb_eq in Hk. subst k0.
    apply list_elem_of_In, elem_of_map_to_list in Hin. eauto.
  - intros (r & Hr & H). exists (k, r). simpl.
    rewrite String.eqb_refl, H. split; [| reflexivity].
    apply list_elem_of_In, elem_of_map_to_list. exact Hr.
Qed.

Lemma swept_socket_spec (now : Z) (m : gmap string Room) (s : string) :
  swept_socket now (map_to_list m) s = true
  <-> exists k r p, m !! k = Some r /\ expired now r = true
                    /\ In p (r_players r) /\ p_socketId p = s.
Proof.
  unfold swept_socket. rewrite existsb_exists. split.
  - intros ([k r] & Hin & H). simpl in H.
    apply andb_true_iff in H as [Hexp H].
    apply existsb_exists in H as (p & Hp & Hs). apply String.eqb_eq in Hs.
    apply list_elem_of_In, elem_of_map_to_list in Hin. eauto 8.
  - intros (k & r & p & Hr & Hexp & Hp & Hs). exists (k, r). simpl.
    rewrite Hexp. split.
    + apply list_elem_of_In, elem_of_map_to_list. exact Hr.
    + apply existsb_exists. exists p. split; [assumption |].
      apply String.eqb_eq. exact Hs.
Qed.

(** The rooms and registry entries after one tick, by lookup. *)
Lemma cleanup_lookup (now : Z) (st : Server) :
  (forall k,
     rooms (fst (cleanup now st)) !! k
     = match rooms st !! k with
       | Some r => if expired now r then None else Some r
       | None => None
       end)
  /\
  (forall s,
     (forall k r p, rooms st !! k = Some r -> expired now r = true ->
                    In p (r_players r) -> p_socketId p <> s) ->
     players (fst (cleanup now st)) !! s = players st !! s)
  /\
  (forall s k r p,
     rooms st !! k = Some r -> expired now r = true ->
     In p (r_players r) -> p_socketId p = s ->
     players (fst (cleanup now st)) !! s = None).
Proof.
  unfold cleanup. split; [| split].
  - intros k.
    destruct (sweep_fold now (map_to_list (rooms st)) st [] k "") as [-> _].
    destruct (swept_room now (map_to_list (rooms st)) k) eqn:Hs.
    + apply swept_room_spec in Hs as (r & -> & ->). reflexivity.
    + destruct (rooms st !! k) as [r |] eqn:Hr; [| reflexivity].
      destruct (expired now r) eqn:Hexp; [| reflexivity].
      assert (swept_room now (map_to_list (rooms st)) k = true) as H
        by (apply swept_room_spec; eauto).
      congruence.
  - intros s Hfree.
    destruct (sweep_fold now (map_to_list (rooms st)) st [] "" s) as [_ ->].
    destruct (swept_socket now (map_to_list (rooms st)) s) eqn:Hs;
      [| reflexivity].
    apply swept_socket_spec in Hs as (k & r & p & Hr & Hexp & Hp & Heq).
    destruct (Hfree k r p Hr Hexp Hp Heq).
  - intros s k r p Hr Hexp Hp Heq.
    destruct (sweep_fold now (map_to_list (rooms st)) st [] "" s) as [_ ->].
    assert (swept_socket now (map_to_list (rooms st)) s = true) as ->
      by (apply swept_socket_spec; eauto 8).
    reflexivity.
Qed.

(** X12. One tick of the clean-up removes exactly the stored rooms that
    are expired at [now] and leaves every other room as it was; it removes
    the registry entry of every socket that has a player in a removed room
    and leaves every other entry as it was. *)
Theorem cleanup_state (now : Z) (st : Server) :
  (forall k,
     rooms (fst (cleanup now st)) !! k
     = match rooms st !! k with
       | Some r => if expired now r then None else Some r
       | None => None
       end)
  /\
  (forall s,
     (forall k r p, rooms st !! k = Some r -> expired now r = true ->
                    In p (r_players r) -> p_socketId p <> s) ->
     players (fst (cleanup now st)) !! s = players st !! s)
  /\
  (forall s k r p,
     rooms st !! k = Some r -> expired now r = true ->
     In p (r_players r) -> p_socketId p = s ->
     players (fst (cleanup now st)) !! s = None).
Proof.
  destruct (cleanup_lookup now st) as (Hrooms & Hkeep & Hgone).
  split; [exact Hrooms |]. split; [exact Hkeep | exact Hgone].
Qed.

(** X13. A second tick of the clean-up at the same time changes nothing
    more: the state after one tick is a fixed point of the sweep. *)
Theorem cleanup_idempotent (now : Z) (st : Server) :
  fst (cleanup now (fst (cleanup now st))) = fst (cleanup now st).
Proof.
  destruct (cleanup_lookup now st) as (Hrooms & _ & _).
  destruct (cleanup_lookup now (fst (cleanup now st))) as (Hrooms' & Hkeep' & _).
  destruct (fst (cleanup now (fst (cleanup now st)))) as [rs2 ps2] eqn:E2.
  destruct (fst (cleanup now st)) as [rs1 ps1] eqn:E1. simpl in *.
  f_equal.
  - apply map_eq. intros k. rewrite Hrooms', Hrooms.
    destruct (rooms st !! k) as [r |]; [| reflexivity].
    destruct (expired now r) eqn:Hexp; [reflexivity |]. rewrite Hexp.
    reflexivity.
  - apply map_eq. intros s. apply Hkeep'.
    intros k r p Hr Hexp. rewrite Hrooms in Hr.
    destruct (rooms st !! k) as [r0 |]; [| discriminate].
    destruct (expired now r0) eqn:Hexp0; [discriminate |].
    injection Hr as <-. congruence.
Qed.

(** X15. The sweep keeps a consistent state consistent: after it every
    stored room still satisfies the room invariant and every bound socket
    still has its player in a stored room. *)
Theorem cleanup_consistent (now : Z) (st : Server) :
  consistent st -> consistent (fst (cleanup now st)).
Proof.
  intros Hc. destruct (cleanup_lookup now st) as (Hrooms & Hkeep & Hgone).
  assert (Hsurv : forall k r, rooms (fst (cleanup now st)) !! k = Some r ->
                    rooms st !! k = Some r /\ expired now r = false).
  { intros k r Hr. rewrite Hrooms in Hr.
    destruct (rooms st !! k) as [r0 |]; [| discriminate].
    destruct (expired now r0) eqn:Hexp; [discriminate |].
    injection Hr as <-. auto. }
  split.
  - intros k r Hr. apply Hsurv in Hr as [Hr Hexp].
    destruct (proj1 Hc _ _ Hr) as (Hinv & Hne & Hs & Hi & Hbind).
    refine (conj Hinv (conj Hne (conj Hs (conj Hi _)))). intros p Hp.
    rewrite Hkeep; [auto |].
    intros k0 r0 p0 Hr0 Hexp0 Hp0 Heq.
    pose proof (consistent_member st k r p Hc Hr Hp) as Hb.
    pose proof (consistent_member st k0 r0 p0 Hc Hr0 Hp0) as Hb0.
    rewrite Heq, Hb in Hb0. injection Hb0 as _ <-. congruence.
  - intros s info Hinfo.
    assert (Hold : players st !! s = Some info).
    { destruct (sweep_fold now (map_to_list (rooms st)) st [] "" s) as [_ H].
      unfold cleanup in Hinfo. rewrite H in Hinfo.
      destruct (swept_socket now (map_to_list (rooms st)) s);
        [discriminate | assumption]. }
    destruct (proj2 Hc _ _ Hold) as (rid & room & p & Hroom & Hp & Hs).
    exists rid, room, p. repeat split; try assumption.
    rewrite Hrooms, Hroom.
    destruct (expired now room) eqn:Hexp; [| reflexivity].
    rewrite (Hgone s rid room p Hroom Hexp Hp Hs) in Hinfo. discriminate.
Qed.

Lemma sweep_notices (now : Z) (l : list (string * Room)) (st : Server)
    (outs : list SweepOut) (k m : string) :
  In (EmitRoomDeleted k m) (snd (fold_left (sweep_room now) l (st, outs)))
  <-> In (EmitRoomDeleted k m) outs
      \/ (m = RoomDeletedMessage
          /\ exists r, In (k, r) l /\ expired now r = true /\ r_players r <> []).
Proof.
  revert st outs. induction l as [| [k0 r0] l IH]; intros st outs; simpl.
  - split; [auto |]. intros [H | (_ & r & [] & _)]. exact H.
  - destruct (expired now r0) eqn:Hexp; rewrite IH; clear IH.
    + rewrite !in_app_iff. split.
      * intros [[H | [H | H]] | (Hm & r & Hin & Hr)].
        -- left. exact H.
        -- destruct (r_players r0) eqn:Hps; simpl in H; [destruct H |].
           destruct H as [[= <- <-] | []]. right. split; [reflexivity |].
           exists r0. rewrite Hps. repeat split; auto; discriminate.
        -- destruct H as [H | []]. discriminate.
        -- right. eauto 6.
      * intros [H | (-> & r & [[= <- <-] | Hin] & Hr & Hne)].
        -- left. left. exact H.
        -- left. right. left. destruct (r_players r0); [congruence |].
           simpl. auto.
        -- right. eauto 6.
    + split.
      * intros [H | (Hm & r & Hin & Hr)]; [left; exact H |]. right. eauto 6.
      * intros [H | (-> & r & [[= <- <-] | Hin] & Hr & Hne)].
        -- left. exact H.
        -- congruence.
        -- right. eauto 6.
Qed.

Lemma sweep_last (now : Z) (l : list (string * Room)) (st : Server)
    (outs : list SweepOut) :
  (fold_left (sweep_room now) l (st, outs) = (st, outs)
   /\ forall e, In e l -> expired now (snd e) = false)
  \/ last (snd (fold_left (sweep_room now) l (st, outs)))
     = Some (SweepRoomsUpdated
               (getActiveRooms (fst (fold_left (sweep_room now) l (st, outs))))).
Proof.
  revert st outs. induction l as [| [k0 r0] l IH]; intros st outs; simpl.
  - left. split; [reflexivity |]. intros e [].
  - destruct (expired now r0) eqn:Hexp.
    + right.
      match goal with
      | |- context [fold_left _ l (?s1, ?o1)] =>
          destruct (IH s1 o1) as [[-> _] | H]; [| exact H]
      end.
      simpl. rewrite app_assoc, last_snoc. reflexivity.
    + destruct (IH st outs) as [[Heq Hall] | H]; [| auto].
      left. split; [exact Heq |]. intros e [<- | He]; auto.
Qed.

(** X14. The sweep sends the ROOM_DELETED event for exactly the
    removed rooms that still have a player; when no stored room is expired
    it sends nothing and changes nothing; otherwise the last thing it sends
    is the room list of the state it ends in. *)
Theorem cleanup_outputs (now : Z) (st : Server) :
  (forall k m,
     In (EmitRoomDeleted k m) (snd (cleanup now st))
     <-> m = RoomDeletedMessage
         /\ exists r, rooms st !! k = Some r /\ expired now r = true
                      /\ r_players r <> [])
  /\ ((forall k r, rooms st !! k = Some r -> expired now r = false) ->
      cleanup now st = (st, []))
  /\ ((exists k r, rooms st !! k = Some r /\ expired now r = true) ->
      last (snd (cleanup now st))
      = Some (SweepRoomsUpdated (getActiveRooms (fst (cleanup now st))))).
Proof.
  unfold cleanup. split; [| split].
  - intros k m. rewrite sweep_notices. split.
    + intros [[] | (-> & r & Hin & H)]. split; [reflexivity |].
      apply list_elem_of_In, elem_of_map_to_list in Hin. eauto.
    + intros (-> & r & Hr & H). right. split; [reflexivity |].
      exists r. split; [| exact H].
      apply list_elem_of_In, elem_of_map_to_list. exact Hr.
  - intros Hnone.
    destruct (sweep_last now (map_to_list (rooms st)) st []) as [[H _] | H];
      [exact H |].
    exfalso.
    assert (Hsame : forall l acc,
              (forall e, In e l -> expired now (snd e) = false) ->
              fold_left (sweep_room now) l acc = acc).
    { induction l as [| [k0 r0] l IH]; intros [s o] Hl; simpl; [reflexivity |].
      pose proof (Hl (k0, r0) (or_introl eq_refl)) as H0. simpl in H0.
      rewrite H0. apply IH.
      intros e He. apply Hl. right. exact He. }
    rewrite Hsame in H; [discriminate |].
    intros [k r] He. apply list_elem_of_In, elem_of_map_to_list in He.
    apply (Hnone k r He).
  - intros (k & r & Hr & Hexp).
    destruct (sweep_last now (map_to_list (rooms st)) st []) as [[_ H] | H];
      [| exact H].
    apply elem_of_map_to_list, list_elem_of_In in Hr.
    pose proof (H (k, r) Hr) as H0. simpl in H0. congruence.
Qed.

(** * The client *)

(** X16. A room event that carries a room replaces [currentRoom] by
    it; among those only HOST_CHANGED touches [isHost], which it sets to
    whether the new host id is the client's player id.  KICKED_FROM_ROOM
    clears the room, the player id and the host flag and sets the error
    text; ROOM_DELETED does the same when it names the client's current room
    and nothing otherwise.  No room event changes the room list or the
    connection flag. *)
Theorem on_room_event_cases (event : ClientRoomEvent) (prev : RoomSystemState) :
  (forall room,
     In event [CE_ROOM_UPDATED room; CE_GAME_STARTED room]
     \/ (exists x, event = CE_PLAYER_JOINED x room)
     \/ (exists x y, event = CE_PLAYER_LEFT x y room)
     \/ (exists x, event = CE_PLAYER_KICKED x room) ->
     rs_currentRoom (on_room_event event prev) = Some room
     /\ rs_isHost (on_room_event event prev) = rs_isHost prev
     /\ rs_currentPlayerId (on_room_event event prev) = rs_currentPlayerId prev
     /\ rs_error (on_room_event event prev) = rs_error prev)
  /\ (forall newHostId room,
        event = CE_HOST_CHANGED newHostId room ->
        rs_currentRoom (on_room_event event prev) = Some room
        /\ (rs_isHost (on_room_event event prev) = true
            <-> rs_currentPlayerId prev = Some newHostId))
  /\ (event = CE_KICKED_FROM_ROOM ->
      rs_currentRoom (on_room_event event prev) = None
      /\ rs_currentPlayerId (on_room_event event prev) = None
      /\ rs_isHost (on_room_event event prev) = false
      /\ rs_error (on_room_event event prev) = Some KickedMessage)
  /\ (forall roomId message,
        event = CE_ROOM_DELETED roomId message ->
        (r_id <$> rs_currentRoom prev = Some roomId ->
         rs_currentRoom (on_room_event event prev) = None
         /\ rs_currentPlayerId (on_room_event event prev) = None
         /\ rs_isHost (on_room_event event prev) = false
         /\ rs_error (on_room_event event prev)
            = Some (or_default message RoomGoneMessage))
        /\ (r_id <$> rs_currentRoom prev <> Some roomId ->
            on_room_event event prev = prev))
  /\ rs_activeRooms (on_room_event event prev) = rs_activeRooms prev
  /\ rs_isConnected (on_room_event event prev) = rs_isConnected prev.
Proof.
  split; [| split; [| split; [| split; [| split]]]].
  - intros room H.
    assert (on_room_event event prev = with_room room prev) as ->.
    { destruct H as [[<- | [<- | []]] | [[x ->] | [(x & y & ->) | [x ->]]]];
        reflexivity. }
    repeat split; reflexivity.
  - intros newHostId room ->. split; [reflexivity |]. apply strict_eq_spec.
  - intros ->. repeat split; reflexivity.
  - intros roomId message ->. simpl.
    destruct (rs_currentRoom prev) as [room |]; simpl.
    + destruct (String.eqb_spec (r_id room) roomId) as [-> | Hne].
      * split; [intros _; repeat split; reflexivity | congruence].
      * split; [congruence | reflexivity].
    + split; [discriminate | reflexivity].
  - destruct event; simpl; try reflexivity.
    destruct (rs_currentRoom prev) as [room |]; [| reflexivity].
    destruct (String.eqb (r_id room) roomId); reflexivity.
  - destruct event; simpl; try reflexivity.
    destruct (rs_currentRoom prev) as [room |]; [| reflexivity].
    destruct (String.eqb (r_id room) roomId); reflexivity.
Qed.


(** X18. The screen the effect selects depends on the room alone:
    the browser without a room, the game when the room's game is in
    progress, the lobby otherwise.  Running the effect again changes
    nothing, and the game is initialised only on the run that enters the
    game screen with a player id at hand. *)
Theorem screen_effect_settles (currentRoom : option Room) (appState : AppState)
    (currentPlayerId : option string) :
  screen_effect currentRoom appState
  = match currentRoom with
    | None => room_browser
    | Some room => if r_gameInProgress room then game else room_lobby
    end
  /\ screen_effect currentRoom (screen_effect currentRoom appState)
     = screen_effect currentRoom appState
  /\ initializes_game currentRoom (screen_effect currentRoom appState)
       currentPlayerId = false
  /\ (initializes_game currentRoom appState currentPlayerId = true ->
      appState <> game /\ screen_effect currentRoom appState = game
      /\ truthy currentPlayerId = true).
Proof.
  unfold screen_effect, initializes_game.
  destruct currentRoom as [room |].
  - destruct (r_gameInProgress room), appState; simpl;
      (split; [reflexivity |]; split; [reflexivity |]; split; [reflexivity |]);
      intros Hinit; try discriminate; repeat split; try discriminate;
      exact Hinit.
  - repeat split; discriminate.
Qed.

(** X19. While fewer than five attempts were made, [handleReconnect]
    counts one more and schedules a reconnect after [1000 * 2^attempts]
    milliseconds capped at 10000, so after between 2 and 10 seconds, never
    sooner than the attempt before; from the fifth attempt on it gives up
    and leaves the counter alone. *)
Theorem reconnect_backoff (n : Z) :
  0 <= n ->
  (n < 5 ->
   exists d,
     handleReconnect n = (n + 1, RetryAfter d)
     /\ d = Z.min (1000 * 2 ^ (n + 1)) 10000
     /\ 2000 <= d <= 10000
     /\ (forall m d', 0 <= m <= n ->
           handleReconnect m = (m + 1, RetryAfter d') -> d' <= d))
  /\ (5 <= n -> handleReconnect n = (n, GiveUp)).
Proof.
  intros Hn. unfold handleReconnect, maxReconnectAttempts. split.
  - intros Hlt. assert ((n <? 5) = true) as -> by (apply Z.ltb_lt; lia).
    eexists. split; [reflexivity |]. split; [reflexivity |].
    assert (n = 0 \/ n = 1 \/ n = 2 \/ n = 3 \/ n = 4) as Hcases by lia.
    split.
    + destruct Hcases as [-> | [-> | [-> | [-> | ->]]]]; simpl; lia.
    + intros m d' Hm.
      assert ((m <? 5) = true) as -> by (apply Z.ltb_lt; lia).
      intros [= <-].
      assert (m = 0 \/ m = 1 \/ m = 2 \/ m = 3 \/ m = 4) as Hm' by lia.
      destruct Hcases as [-> | [-> | [-> | [-> | ->]]]];
        destruct Hm' as [-> | [-> | [-> | [-> | ->]]]]; simpl; lia.
  - intros Hge. assert ((n <? 5) = false) as -> by (apply Z.ltb_ge; lia).
    reflexivity.
Qed.

(** X20. When the server handles a create-room and the client stores
    its reply, client and server agree: the client holds the created room
    and its player id and believes it is host, the room's [hostId] is that
    player id, the server sees the socket as host of the room, and the
    hook's [startGame] sends a start-game for that very room. *)
Theorem create_reply_agrees (socketId : string) (data : CreateRoomData)
    (roomId playerId : string) (now : Z) (st : Server)
    (prev : RoomSystemState) :
  playerId <> "" ->
  exists room,
    In (Callback (CreateOk room playerId))
       (snd (on_create_room socketId data roomId playerId now st))
    /\ rs_currentRoom
         (hook_createRoom_result
            (service_response true (CreateOk room playerId)) prev) = Some room
    /\ rs_currentPlayerId
         (hook_createRoom_result
            (service_response true (CreateOk room playerId)) prev)
       = Some playerId
    /\ rs_isHost
         (hook_createRoom_result
            (service_response true (CreateOk room playerId)) prev) = true
    /\ rs_error
         (hook_createRoom_result
            (service_response true (CreateOk room playerId)) prev) = None
    /\ host_of (fst (on_create_room socketId data roomId playerId now st))
         socketId roomId room
    /\ hook_startGame true socketId
         (hook_createRoom_result
            (service_response true (CreateOk room playerId)) prev)
       = Some (StartGame socketId roomId).
Proof.
  intros Hpid. apply String.eqb_neq in Hpid.
  eexists. split; [simpl; right; left; reflexivity |].
  unfold hook_createRoom_result, on_result, hook_startGame. simpl.
  rewrite Hpid. simpl. repeat split.
  exists (mkInfo playerId roomId). simpl. rewrite !lookup_insert_eq. auto.
Qed.

(** X21. Whatever the reply, the hook's [joinRoom] ends with [loading]
    false.  A successful reply with a non-empty player id is stored as the
    current room and player id with [isHost] false and no error.  Every
    other outcome keeps the room, player id and host flag the client had and
    records an error text: the server's for a refused join (the fallback
    text when that is empty), the fallback text for a success reply whose
    player id is empty, and the no-connection text for a request made while
    the socket service is not connected. *)
Theorem join_reply_cases (connected : bool) (result : JoinResult)
    (prev : RoomSystemState) :
  rs_loading
    (hook_joinRoom_result (service_response connected (JoinReply result)) prev)
  = false
  /\ (forall room playerId,
        connected = true -> result = JoinOk room playerId -> playerId <> "" ->
        hook_joinRoom_result (service_response connected (JoinReply result)) prev
        = mkRoomSystem (Some room) (Some playerId) false (rs_activeRooms prev)
            false None (rs_isConnected prev))
  /\ (forall room,
        connected = true -> result = JoinOk room "" ->
        hook_joinRoom_result (service_response connected (JoinReply result)) prev
        = mkRoomSystem (rs_currentRoom prev) (rs_currentPlayerId prev)
            (rs_isHost prev) (rs_activeRooms prev) false
            (Some CannotJoinMessage) (rs_isConnected prev))
  /\ (forall e,
        connected = true -> result = JoinFail e ->
        hook_joinRoom_result (service_response connected (JoinReply result)) prev
        = mkRoomSystem (rs_currentRoom prev) (rs_currentPlayerId prev)
            (rs_isHost prev) (rs_activeRooms prev) false
            (Some (if String.eqb e "" then CannotJoinMessage else e))
            (rs_isConnected prev))
  /\ (connected = false ->
      hook_joinRoom_result (service_response connected (JoinReply result)) prev
      = mkRoomSystem (rs_currentRoom prev) (rs_currentPlayerId prev)
          (rs_isHost prev) (rs_activeRooms prev) false
          (Some NoConnectionMessage) (rs_isConnected prev)).
Proof.
  unfold hook_joinRoom_result, on_result, service_response.
  split; [| split; [| split; [| split]]].
  - destruct connected; [| reflexivity].
    destruct result as [e | room pid]; simpl; [reflexivity |].
    destruct (negb (String.eqb pid "")); reflexivity.
  - intros room playerId -> -> Hpid. apply String.eqb_neq in Hpid. simpl.
    rewrite Hpid. reflexivity.
  - intros room -> ->. reflexivity.
  - intros e -> ->. reflexivity.
  - intros ->. reflexivity.
Qed.

(** * Instances of the further properties *)

Lemma lobby2_admissible :
  admissible_trace [demo_create; demo_join] empty_server.
Proof.
  cbn [demo_create demo_join admissible_trace admissible].
  repeat split; try (vm_compute; reflexivity).
  intros room p Hroom Hin Heq. vm_compute in Hroom. injection Hroom as <-.
  simpl in Hin. destruct Hin as [<- | []]. discriminate.
Qed.

(** X2 on the demo lobby: two players in a room for four. *)
Lemma currentPlayers_capped_witness : 2 <= Z.max 1 4.
Proof.
  apply (currentPlayers_capped [demo_create; demo_join] "ABC123"
           (mkRoom "ABC123" "R1" "a" "alice" 4 2 true (Some "pw")
              [mkPlayer "a" "alice" "A" true true 0;
               mkPlayer "b" "bob" "B" false false 1] waiting 0 false None)).
  vm_compute. reflexivity.
Defined.

(** X3 on the demo lobby. *)
Lemma players_within_capacity_witness : Z.of_nat 2 <= Z.max 1 4.
Proof.
  apply (players_within_capacity [demo_create; demo_join] "ABC123"
           (mkRoom "ABC123" "R1" "a" "alice" 4 2 true (Some "pw")
              [mkPlayer "a" "alice" "A" true true 0;
               mkPlayer "b" "bob" "B" false false 1] waiting 0 false None)).
  - exact lobby2_admissible.
  - vm_compute. reflexivity.
Defined.

(** X4 on the demo lobby: B's leave does not touch a room under another
    code nor A's registry entry. *)
Lemma handle_local_witness :
  rooms (fst (handle (LeaveRoom "B") lobby2)) !! "XYZ789"
  = rooms lobby2 !! "XYZ789"
  /\ players (fst (handle (LeaveRoom "B") lobby2)) !! "A" = players lobby2 !! "A".
Proof.
  destruct (handle_local (LeaveRoom "B") lobby2) as [Hrooms Hreg].
  split; [apply Hrooms | apply Hreg]; vm_compute; discriminate.
Defined.

(** X5 on the demo lobby: B's toggle succeeds and answers [true]. *)
Lemma toggle_ready_cases_witness :
  exists room',
    on_toggle_ready "B" "ABC123" lobby2
    = (mkServer (<["ABC123" := room']> (rooms lobby2)) (players lobby2),
       [EmitToRoom "ABC123" (ROOM_UPDATED room'); Callback (ReadyOk true)])
    /\ find_by_id "b" (r_players room')
       = Some (mkPlayer "b" "bob" "B" false true 1).
Proof.
  destruct (toggle_ready_cases "B" "ABC123" lobby2) as [_ H].
  destruct (H (mkInfo "b" "ABC123")) as [_ H']; [vm_compute; reflexivity
                                                | reflexivity |].
  destruct (H' (mkRoom "ABC123" "R1" "a" "alice" 4 2 true (Some "pw")
                  [mkPlayer "a" "alice" "A" true true 0;
                   mkPlayer "b" "bob" "B" false false 1] waiting 0 false None))
    as [_ H'']; [vm_compute; reflexivity |].
  destruct (H'' (mkPlayer "b" "bob" "B" false false 1)) as [_ Hok];
    [reflexivity |].
  destruct (Hok eq_refl) as (room' & Heq & Hfind & _).
  exists room'. split; [exact Heq | exact Hfind].
Defined.

(** X6 on the demo lobby: B toggles twice. *)
Lemma toggle_ready_twice_witness :
  fst (on_toggle_ready "B" "ABC123" (fst (on_toggle_ready "B" "ABC123" lobby2)))
  = lobby2.
Proof.
  apply (toggle_ready_twice "B" "ABC123" lobby2). vm_compute. reflexivity.
Defined.

(** X7 on the demo lobby: B disconnects. *)
Lemma disconnect_as_leave_witness :
  fst (on_disconnect "B" lobby2) = fst (on_leave_room "B" lobby2).
Proof.
  destruct (disconnect_as_leave "B" lobby2) as [H _].
  apply H. right.
  exists (mkInfo "b" "ABC123"),
    (mkRoom "ABC123" "R1" "a" "alice" 4 2 true (Some "pw")
       [mkPlayer "a" "alice" "A" true true 0;
        mkPlayer "b" "bob" "B" false false 1] waiting 0 false None).
  vm_compute. auto.
Defined.

(** X8 on a room created with password "pw": a join with "no" is refused
    with WrongPassword. *)
Lemma password_gate_witness :
  fst (joinRoom (mkJoin "ABC123" "bob" (Some "no")) "B" "b" 1
         (snd (createRoom (mkCreate "R1" "alice" 4 (Some "pw")) "A" "ABC123" "a"
                 0 empty_server)))
  = JoinFail WrongPassword.
Proof.
  apply (password_gate (mkCreate "R1" "alice" 4 (Some "pw")) "A" "ABC123" "a" 0
           empty_server (mkJoin "ABC123" "bob" (Some "no")) "B" "b" 1);
    [reflexivity | simpl; lia | vm_compute; reflexivity].
Defined.

(** X11 on the demo lobby once B is ready: A starts the game twice. *)
Lemma start_game_unlists_witness :
  on_start_game "A" "ABC123"
    (fst (on_start_game "A" "ABC123"
            (run [demo_create; demo_join; ToggleReady "B" "ABC123"]
               empty_server)))
  = on_start_game "A" "ABC123"
      (run [demo_create; demo_join; ToggleReady "B" "ABC123"] empty_server).
Proof.
  apply (start_game_unlists "A" "ABC123"
           (run [demo_create; demo_join; ToggleReady "B" "ABC123"] empty_server)).
  vm_compute. reflexivity.
Defined.

(** X12 on the demo lobby, swept well after the idle time: the room is
    gone and B's registry entry with it. *)
Lemma cleanup_state_witness :
  rooms (fst (cleanup 2000000 lobby2)) !! "ABC123" = None
  /\ players (fst (cleanup 2000000 lobby2)) !! "B" = None.
Proof.
  destruct (cleanup_state 2000000 lobby2) as (Hrooms & _ & Hgone).
  split.
  - rewrite Hrooms. vm_compute. reflexivity.
  - apply (Hgone "B" "ABC123"
             (mkRoom "ABC123" "R1" "a" "alice" 4 2 true (Some "pw")
                [mkPlayer "a" "alice" "A" true true 0;
                 mkPlayer "b" "bob" "B" false false 1] waiting 0 false None)
             (mkPlayer "b" "bob" "B" false false 1));
      [vm_compute; reflexivity | reflexivity | simpl; auto | reflexivity].
Defined.

(** X14 on the demo lobby: the sweep announces the deletion of ABC123. *)
Lemma cleanup_outputs_witness :
  In (EmitRoomDeleted "ABC123" RoomDeletedMessage) (snd (cleanup 2000000 lobby2)).
Proof.
  destruct (cleanup_outputs 2000000 lobby2) as (Hnotice & _ & _).
  apply Hnotice. split; [reflexivity |].
  exists (mkRoom "ABC123" "R1" "a" "alice" 4 2 true (Some "pw")
            [mkPlayer "a" "alice" "A" true true 0;
             mkPlayer "b" "bob" "B" false false 1] waiting 0 false None).
  split; [vm_compute; reflexivity |]. split; [reflexivity | discriminate].
Defined.

(** X15 on the demo lobby. *)
Lemma cleanup_consistent_witness : consistent (fst (cleanup 2000000 lobby2)).
Proof.
  apply (cleanup_consistent 2000000 lobby2).
  apply (consistent_run [demo_create; demo_join] empty_server consistent_empty).
  exact lobby2_admissible.
Defined.


(** X19 at the fourth attempt: the delay is capped at ten seconds. *)
Lemma reconnect_backoff_witness :
  exists d, handleReconnect 3 = (4, RetryAfter d) /\ 2000 <= d <= 10000.
Proof.
  destruct (reconnect_backoff 3) as [H _]; [lia |].
  destruct H as (d & Heq & _ & Hbound & _); [lia |].
  exists d. split; [exact Heq | exact Hbound].
Defined.

(** X20 for A's create on the empty server. *)
Lemma create_reply_agrees_witness :
  exists room,
    In (Callback (CreateOk room "a"))
       (snd (on_create_room "A" (mkCreate "R1" "alice" 4 (Some "pw")) "ABC123"
               "a" 0 empty_server))
    /\ r_hostId room = "a"
    /\ rs_isHost
         (hook_createRoom_result (service_response true (CreateOk room "a"))
            (mkRoomSystem None None false [] false None true)) = true.
Proof.
  destruct (create_reply_agrees "A" (mkCreate "R1" "alice" 4 (Some "pw"))
              "ABC123" "a" 0 empty_server
              (mkRoomSystem None None false [] false None true))
    as (room & Hin & _ & _ & Hflag & _ & Hhost & _); [discriminate |].
  exists room. split; [exact Hin |]. split; [| exact Hflag].
  destruct Hhost as (info & Hinfo & _ & _ & Hh).
  vm_compute in Hinfo. injection Hinfo as <-. exact Hh.
Defined.
